(** * Abandon-call analysis: the classification and reconciliation engine

    A shallow embedding of [SimplifiedAbandonCallsAnalyzer]
    (cipla_data_analysis_v2.py) and the properties of its field normalizer,
    abandon detector, recovery matcher and metrics aggregator.

    Conventions of the embedding.
    - Text is ASCII: a Python [str] is a [string], and [str.isdigit],
      [str.strip] and [str.split] are given on ASCII characters.
    - A record is the row after [safe_get_column]: every field the analyzer
      reads is present, a missing or NaN cell already replaced by the default
      the caller passes (the empty string).
    - A timestamp is a naive [pd.Timestamp], an integer count of nanoseconds
      since the epoch.  The string parsers of pandas and the clock reading are
      an interface ([Runtime]); one run reads one clock value.
    - The phone dictionary is a [gmap string PhoneData]; an in-place mutation
      of an entry is an update at its key.
    - Counters are [nat], clock arithmetic is in [Z]; the rate, a Python
      float, is computed in exact rational arithmetic ([Q]).
    - Logging and printing have no effect on any returned value and are left
      out. *)

From Stdlib Require Import Ascii String ZArith QArith Qround Lia Lqa.
From stdpp Require Import base decidable option list sorting strings gmap fin_maps.

Open Scope string_scope.
Open Scope Z_scope.

(** ** Python string primitives (ASCII) *)

Module PyStr.

(** [c.isdigit()] for one ASCII character. *)
Definition isdigit_char (c : ascii) : bool :=
  let n := Ascii.nat_of_ascii c in (48 <=? n)%nat && (n <=? 57)%nat.

(** [c.isspace()] for one ASCII character: tab, newline, vertical tab, form
    feed, carriage return, the four separators 0x1c-0x1f, and space. *)
Definition isspace_char (c : ascii) : bool :=
  let n := Ascii.nat_of_ascii c in
  ((9 <=? n)%nat && (n <=? 13)%nat) || ((28 <=? n)%nat && (n <=? 32)%nat).

(** [s.isdigit()]: non-empty and every character a digit. *)
Fixpoint all_digits (s : string) : bool :=
  match s with
  | EmptyString => true
  | String c s' => isdigit_char c && all_digits s'
  end.

Definition isdigit (s : string) : bool :=
  match s with
  | EmptyString => false
  | String _ _ => all_digits s
  end.

(** [''.join(filter(str.isdigit, s))]. *)
Fixpoint filter_digits (s : string) : string :=
  match s with
  | EmptyString => EmptyString
  | String c s' =>
      if isdigit_char c then String c (filter_digits s') else filter_digits s'
  end.

(** [s[n:]] for [0 <= n]. *)
Fixpoint drop (n : nat) (s : string) : string :=
  match n, s with
  | O, _ => s
  | S n', EmptyString => EmptyString
  | S n', String _ s' => drop n' s'
  end.

(** [s[-n:]]: the last [n] characters, the whole string when it is
    shorter. *)
Definition last_chars (n : nat) (s : string) : string :=
  drop (String.length s - n) s.

Definition digit_value (c : ascii) : nat := Ascii.nat_of_ascii c - 48.

(** [int(s)] for a string of ASCII digits. *)
Fixpoint int_go (acc : nat) (s : string) : nat :=
  match s with
  | EmptyString => acc
  | String c s' => int_go (10 * acc + digit_value c) s'
  end.

Definition int (s : string) : nat := int_go 0 s.

Fixpoint lstrip (s : string) : string :=
  match s with
  | EmptyString => EmptyString
  | String c s' => if isspace_char c then lstrip s' else s
  end.

Fixpoint rstrip (s : string) : string :=
  match s with
  | EmptyString => EmptyString
  | String c s' =>
      match rstrip s' with
      | EmptyString => if isspace_char c then EmptyString else String c EmptyString
      | r => String c r
      end
  end.

(** [s.strip()]. *)
Definition strip (s : string) : string := rstrip (lstrip s).

(** [s.split(sep)] for a one-character separator: never the empty list. *)
Fixpoint split (sep : ascii) (s : string) : list string :=
  match s with
  | EmptyString => [EmptyString]
  | String c s' =>
      if decide (c = sep) then EmptyString :: split sep s'
      else match split sep s' with
           | [] => [String c EmptyString]
           | f :: fs => String c f :: fs
           end
  end.

(** [sub in s]. *)
Fixpoint contains (sub s : string) : bool :=
  String.prefix sub s ||
  match s with
  | EmptyString => false
  | String _ s' => contains sub s'
  end.

End PyStr.

(** ** Field normalizer *)

(** The string parsers of pandas and the wall clock.  A parser returns a
    timestamp or raises; [None] stands for the exception, which
    [validate_timestamp] catches.  Text that pandas reads as NaT is outside
    the model. *)
Class Runtime := {
  now : Z;
  to_datetime_12h : string → option Z;
  to_datetime : string → option Z
}.

(** A "Call Time" cell: text, or a cell the loader already typed as a
    timestamp. *)
Inductive cell :=
| Text (s : string)
| Stamp (t : Z).

#[global] Instance cell_eq_dec : EqDecision cell.
Proof. solve_decision. Defined.

Definition ns_per_hour : Z := 3600 * 1000000000.
Definition ns_per_day : Z := 24 * ns_per_hour.

Module Normalizer.

(** [validate_phone_number] *)
Definition validate_phone_number (phone_str : string) : option string :=
  if decide (phone_str = "") then None
  else
    let digits_only := PyStr.filter_digits phone_str in
    if decide (String.length digits_only < 10)%nat then None
    else if decide (15 < String.length digits_only)%nat then None
    else Some (PyStr.last_chars 10 digits_only).

(** The range test of [validate_timestamp]. *)
Definition in_window `{Runtime} (parsed_date : Z) : option Z :=
  let min_date := now - 730 * ns_per_day in
  let max_date := now + 365 * ns_per_day in
  if decide (parsed_date < min_date ∨ max_date < parsed_date) then None
  else Some parsed_date.

(** The parse at the head of [validate_timestamp]: the 12-hour format when
    the text has an AM/PM marker, the generic parse otherwise; a typed cell
    is its own parse. *)
Definition parse_timestamp `{Runtime} (datetime_str : cell) : option Z :=
  match datetime_str with
  | Text s =>
      if decide (s = "") then None
      else if PyStr.contains "AM" s || PyStr.contains "PM" s
           then to_datetime_12h s else to_datetime s
  | Stamp t => Some t
  end.

(** [validate_timestamp] *)
Definition validate_timestamp `{Runtime} (datetime_str : cell) : option Z :=
  match parse_timestamp datetime_str with
  | Some parsed_date => in_window parsed_date
  | None => None
  end.

(** [datetime_obj.hour] and [datetime_obj.date()] (days since the epoch). *)
Definition hour (t : Z) : Z := (t / ns_per_hour) mod 24.
Definition date (t : Z) : Z := t / ns_per_day.

(** [convert_to_business_date]: the 6AM-6AM cycle. *)
Definition convert_to_business_date (datetime_obj : Z) : Z :=
  if decide (hour datetime_obj < 6) then date datetime_obj - 1
  else date datetime_obj.

(** A field of a duration: [int(p) if p.isdigit() else 0]. *)
Definition field_value (p : string) : nat :=
  if PyStr.isdigit p then PyStr.int p else 0%nat.

(** [time_to_seconds] *)
Definition time_to_seconds (time_str : string) : nat :=
  if decide (time_str = "00:00:00" ∨ time_str = "") then 0%nat
  else
    match PyStr.split ":" (PyStr.strip time_str) with
    | [p0; p1; p2] =>
        let hours := field_value p0 in
        let minutes := field_value p1 in
        let seconds := field_value p2 in
        if decide (24 < hours ∨ 59 < minutes ∨ 59 < seconds)%nat then 0%nat
        else (hours * 3600 + minutes * 60 + seconds)%nat
    | _ => 0%nat
    end.

End Normalizer.

(** ** Data model *)

(** A row of the inbound queue (ACD) log. *)
Record AcdRecord := {
  acd_phone : string;            (* 'Phone' *)
  acd_answered_hungup : string;  (* 'Answered/Hungup' *)
  acd_wait_time : string;        (* 'Wait Time at ACD' *)
  acd_call_time : cell;          (* 'Call Time' *)
  acd_queue_name : string;       (* 'Queue Name' *)
  acd_username : string;         (* 'Username' *)
  acd_disposition : string;      (* 'User Disposition Code' *)
  acd_talk_time : string         (* 'User Talk Time' *)
}.

(** A row of the outbound dialer (CALL) log. *)
Record CallRecord := {
  out_phone : string;               (* 'Phone' *)
  out_call_type : string;           (* 'Call Type' *)
  out_system_disposition : string;  (* 'System Disposition' *)
  out_call_time : cell;             (* 'Call Time' *)
  out_disposition : string;         (* 'Disposition Code' *)
  out_username : string;            (* 'User Name' *)
  out_talk_time : string            (* 'User Talk Time' *)
}.

(** An entry of a phone's ['abandon_calls'] list. *)
Record AbandonCall := {
  call_time : Z;
  call_time_str : cell;
  business_date : Z;
  wait_time_seconds : nat;
  wait_time_str : string;
  queue_name : string;
  username : string;
  disposition : string
}.

Inductive Direction := INBOUND | OUTBOUND.

(** The ['recovery_call'] dictionary. *)
Record RecoveryCall := {
  rc_type : Direction;
  rc_time : Z;
  rc_time_str : cell;
  rc_business_date : Z;
  rc_disposition : string;
  rc_username : string;
  rc_talk_time : string
}.

(** The values ['recovery_status'] takes. *)
Inductive Status := RECOVERED | ATTEMPTED | NEEDS_OUTBOUND.

#[global] Instance Status_eq_dec : EqDecision Status.
Proof. solve_decision. Defined.

(** The per-phone dictionary. The keys ['recovery_call'] and
    ['recovery_status'] are absent until the recovery search sets them. *)
Record PhoneData := {
  phone : string;
  original_phone : string;
  first_abandon_time : Z;
  first_abandon_time_str : cell;
  first_abandon_business_date : Z;
  abandon_calls : list AbandonCall;
  total_abandon_calls : nat;
  recovery_call : option RecoveryCall;
  recovery_status : option Status
}.

Definition set_first_abandon (t : Z) (raw : cell) (bd : Z) (pd : PhoneData) : PhoneData :=
  {| phone := phone pd; original_phone := original_phone pd;
     first_abandon_time := t; first_abandon_time_str := raw;
     first_abandon_business_date := bd;
     abandon_calls := abandon_calls pd;
     total_abandon_calls := total_abandon_calls pd;
     recovery_call := recovery_call pd; recovery_status := recovery_status pd |}.

Definition append_abandon_call (c : AbandonCall) (pd : PhoneData) : PhoneData :=
  {| phone := phone pd; original_phone := original_phone pd;
     first_abandon_time := first_abandon_time pd;
     first_abandon_time_str := first_abandon_time_str pd;
     first_abandon_business_date := first_abandon_business_date pd;
     abandon_calls := abandon_calls pd ++ [c];
     total_abandon_calls := total_abandon_calls pd;
     recovery_call := recovery_call pd; recovery_status := recovery_status pd |}.

Definition incr_total_abandon_calls (pd : PhoneData) : PhoneData :=
  {| phone := phone pd; original_phone := original_phone pd;
     first_abandon_time := first_abandon_time pd;
     first_abandon_time_str := first_abandon_time_str pd;
     first_abandon_business_date := first_abandon_business_date pd;
     abandon_calls := abandon_calls pd;
     total_abandon_calls := total_abandon_calls pd + 1;
     recovery_call := recovery_call pd; recovery_status := recovery_status pd |}.

Definition set_recovery_call (rc : RecoveryCall) (pd : PhoneData) : PhoneData :=
  {| phone := phone pd; original_phone := original_phone pd;
     first_abandon_time := first_abandon_time pd;
     first_abandon_time_str := first_abandon_time_str pd;
     first_abandon_business_date := first_abandon_business_date pd;
     abandon_calls := abandon_calls pd;
     total_abandon_calls := total_abandon_calls pd;
     recovery_call := Some rc; recovery_status := recovery_status pd |}.

Definition set_recovery_status (st : Status) (pd : PhoneData) : PhoneData :=
  {| phone := phone pd; original_phone := original_phone pd;
     first_abandon_time := first_abandon_time pd;
     first_abandon_time_str := first_abandon_time_str pd;
     first_abandon_business_date := first_abandon_business_date pd;
     abandon_calls := abandon_calls pd;
     total_abandon_calls := total_abandon_calls pd;
     recovery_call := recovery_call pd; recovery_status := Some st |}.

(** ** Abandon detector *)

Module Detector.
Import Normalizer.

Section WithRuntime.
Context `{Runtime}.

(** The test [answered_hungup == 'HUNGUP' and wait_time_seconds > 27]. *)
Definition is_abandon (record : AcdRecord) : Prop :=
  acd_answered_hungup record = "HUNGUP"
  ∧ (27 < time_to_seconds (acd_wait_time record))%nat.

#[global] Instance is_abandon_dec record : Decision (is_abandon record).
Proof. unfold is_abandon. apply _. Defined.

(** The dictionary a phone gets at its first abandon call. *)
Definition new_phone_data (normalized_phone phone_raw : string)
    (call_datetime : Z) (call_time_raw : cell) (bd : Z) : PhoneData :=
  {| phone := normalized_phone; original_phone := phone_raw;
     first_abandon_time := call_datetime;
     first_abandon_time_str := call_time_raw;
     first_abandon_business_date := bd;
     abandon_calls := []; total_abandon_calls := 0;
     recovery_call := None; recovery_status := None |}.

(** The entry appended to ['abandon_calls']. *)
Definition abandon_call_of (record : AcdRecord) (call_datetime : Z) : AbandonCall :=
  {| call_time := call_datetime;
     call_time_str := acd_call_time record;
     business_date := convert_to_business_date call_datetime;
     wait_time_seconds := time_to_seconds (acd_wait_time record);
     wait_time_str := acd_wait_time record;
     queue_name := acd_queue_name record;
     username := acd_username record;
     disposition := acd_disposition record |}.

(** What an abandon call does to its phone's entry: create it if absent,
    append the call, count it, keep the earliest abandon. *)
Definition track_abandon (current : option PhoneData) (normalized_phone : string)
    (record : AcdRecord) (call_datetime : Z) : PhoneData :=
  let bd := convert_to_business_date call_datetime in
  let entry :=
    match current with
    | Some pd => pd
    | None => new_phone_data normalized_phone (acd_phone record)
                call_datetime (acd_call_time record) bd
    end in
  let entry := append_abandon_call (abandon_call_of record call_datetime) entry in
  let entry := incr_total_abandon_calls entry in
  if decide (call_datetime < first_abandon_time entry)
  then set_first_abandon call_datetime (acd_call_time record) bd entry
  else entry.

(** One iteration of the loop of [extract_abandon_phone_numbers].  A
    normalized phone and a validated timestamp are truthy, so the two
    [if not ...: continue] guards fire on [None] only. *)
Definition extract_step (abandon_phone_data : gmap string PhoneData)
    (record : AcdRecord) : gmap string PhoneData :=
  match validate_phone_number (acd_phone record) with
  | None => abandon_phone_data
  | Some normalized_phone =>
      match validate_timestamp (acd_call_time record) with
      | None => abandon_phone_data
      | Some call_datetime =>
          if decide (is_abandon record) then
            <[normalized_phone :=
                track_abandon (abandon_phone_data !! normalized_phone)
                  normalized_phone record call_datetime]> abandon_phone_data
          else abandon_phone_data
      end
  end.

(** [extract_abandon_phone_numbers] *)
Definition extract_abandon_phone_numbers (acd_data : list AcdRecord)
    : gmap string PhoneData :=
  foldl extract_step ∅ acd_data.

End WithRuntime.
End Detector.

(** ** Recovery matcher *)

Module Matcher.
Import Normalizer.

(** [self.successful_dispositions] *)
Definition successful_dispositions : list string :=
  ["Others"; "MI"; "PQC"; "AE"; "AE MI"; "AE PQC"; "Non-case"; "Test";
   "AE PQC MI"; "PQC MI"; "Inbound Follow-up"; "Translation AE"].

Section WithRuntime.
Context `{Runtime}.

Definition inbound_recovery_data (record : AcdRecord) (call_time : Z) : RecoveryCall :=
  {| rc_type := INBOUND; rc_time := call_time;
     rc_time_str := acd_call_time record;
     rc_business_date := convert_to_business_date call_time;
     rc_disposition := acd_disposition record;
     rc_username := acd_username record;
     rc_talk_time := acd_talk_time record |}.

Definition outbound_recovery_data (record : CallRecord) (call_time : Z) : RecoveryCall :=
  {| rc_type := OUTBOUND; rc_time := call_time;
     rc_time_str := out_call_time record;
     rc_business_date := convert_to_business_date call_time;
     rc_disposition := out_disposition record;
     rc_username := out_username record;
     rc_talk_time := out_talk_time record |}.

(** The inbound rows the search looks at: same phone, ANSWERED, a valid
    call time after the first abandon.  The result is the recovery data
    the loop body builds. *)
Definition inbound_candidate (phone : string) (first_abandon_time : Z)
    (record : AcdRecord) : option RecoveryCall :=
  if decide (validate_phone_number (acd_phone record) = Some phone
             ∧ acd_answered_hungup record = "ANSWERED") then
    match validate_timestamp (acd_call_time record) with
    | Some call_time =>
        if decide (first_abandon_time < call_time)
        then Some (inbound_recovery_data record call_time) else None
    | None => None
    end
  else None.

Definition outbound_candidate (phone : string) (first_abandon_time : Z)
    (record : CallRecord) : option RecoveryCall :=
  if decide (validate_phone_number (out_phone record) = Some phone
             ∧ out_call_type record = "outbound.manual.dial"
             ∧ out_system_disposition record = "CONNECTED") then
    match validate_timestamp (out_call_time record) with
    | Some call_time =>
        if decide (first_abandon_time < call_time)
        then Some (outbound_recovery_data record call_time) else None
    | None => None
    end
  else None.

(** The body both loops share once a candidate is at hand; the flag says
    whether the loop breaks. *)
Definition consider (recovery_data : RecoveryCall) (phone_data : PhoneData)
    : PhoneData * bool :=
  if decide (rc_disposition recovery_data ∈ successful_dispositions) then
    (set_recovery_status RECOVERED (set_recovery_call recovery_data phone_data), true)
  else
    match recovery_call phone_data with
    | None =>
        (set_recovery_status ATTEMPTED (set_recovery_call recovery_data phone_data), false)
    | Some _ => (phone_data, false)
    end.

(** A [for] loop over a log with [break]: the entry after the loop and
    [recovery_found_for_phone]. *)
Fixpoint scan {R} (candidate : R → option RecoveryCall)
    (phone_data : PhoneData) (log : list R) : PhoneData * bool :=
  match log with
  | [] => (phone_data, false)
  | record :: rest =>
      match candidate record with
      | Some recovery_data =>
          let '(phone_data', found) := consider recovery_data phone_data in
          if found then (phone_data', true) else scan candidate phone_data' rest
      | None => scan candidate phone_data rest
      end
  end.

(** The body of the loop over [abandon_phone_data.items()].  The guard
    [if not first_abandon_time: continue] never fires: a timestamp is
    truthy. *)
Definition search_phone (acd_data : list AcdRecord) (call_data : list CallRecord)
    (phone : string) (phone_data : PhoneData) : PhoneData :=
  let first_abandon_time := first_abandon_time phone_data in
  let '(phone_data, recovery_found_for_phone) :=
    scan (inbound_candidate phone first_abandon_time) phone_data acd_data in
  let '(phone_data, recovery_found_for_phone) :=
    if recovery_found_for_phone then (phone_data, true)
    else scan (outbound_candidate phone first_abandon_time) phone_data call_data in
  if recovery_found_for_phone then phone_data
  else set_recovery_status NEEDS_OUTBOUND phone_data.

(** [find_recovery_calls] *)
Definition find_recovery_calls (abandon_phone_data : gmap string PhoneData)
    (acd_data : list AcdRecord) (call_data : list CallRecord)
    : gmap string PhoneData :=
  map_imap (λ phone phone_data,
              Some (search_phone acd_data call_data phone phone_data))
           abandon_phone_data.

End WithRuntime.
End Matcher.

(** ** Metrics aggregator *)

(** The dictionary [generate_summary_metrics] returns. *)
Record SummaryMetrics := {
  total_valid_calls : nat;        (* 'Total Valid Calls' *)
  total_answered_calls : nat;     (* 'Total Answered Calls' *)
  total_hungup_calls : nat;       (* 'Total Hungup Calls' *)
  quick_drops : nat;              (* 'Quick Drops (<=27 sec)' *)
  abandon_calls_gt27 : nat;       (* 'Abandon Calls (>27 sec)' *)
  unique_abandon_phones : nat;    (* 'Unique Abandon Phone Numbers' *)
  unique_phones_recovered : nat;  (* 'Unique Phones Recovered' *)
  unique_phones_needing : nat;    (* 'Unique Phones Needing Outbound Calls' *)
  abandonment_rate : Q            (* 'Abandonment Rate (%)' *)
}.

(** The five counters of the loop of [generate_summary_metrics]. *)
Record Tally := {
  t_valid_calls : nat;
  t_valid_answered : nat;
  t_valid_hungup : nat;
  t_quick_drops : nat;
  t_total_abandon_calls : nat
}.

(** One line of the daily breakdown, with the numbers behind its display
    strings. *)
Record DailyRow := {
  row_business_date : Z;
  row_total_calls : nat;
  row_answered_calls : nat;
  row_hungup_calls : nat;
  row_quick_drops : nat;
  row_abandon_calls : nat;
  row_unique_abandon_phones : nat;
  row_recovered_phones : nat;
  row_phones_needing_calls : nat;
  row_abandonment_rate : Q
}.

(** A value of [phones_by_date]. *)
Record DayPhones := {
  day_phones : list string;
  day_recovered : nat
}.

(** A row of [valid_data]. *)
Record ValidRow := {
  vr_record : AcdRecord;
  vr_parsed_date : Z;
  vr_business_date : Z
}.

#[global] Instance Qlt_decision (x y : Q) : Decision (x < y)%Q.
Proof.
  destruct (Qlt_le_dec x y) as [Hlt|Hle]; [left; exact Hlt|right].
  intros Hlt. exact (Qle_not_lt _ _ Hle Hlt).
Defined.

Module Metrics.
Import Normalizer.

(** [round(x)] on an exact rational: to the nearest integer, a tie to the
    even one. *)
Definition round_half_even (x : Q) : Z :=
  let f := Qfloor x in
  match (x - inject_Z f ?= 1 # 2)%Q with
  | Lt => f
  | Gt => f + 1
  | Eq => if Z.even f then f else f + 1
  end.

(** [round(x, 1)] *)
Definition round1 (x : Q) : Q := (inject_Z (round_half_even (x * 10)) / 10)%Q.

(** [(a - b) / n * 100] on counters. *)
Definition percent_of (a b n : nat) : Q :=
  (inject_Z (Z.of_nat a - Z.of_nat b) / inject_Z (Z.of_nat n) * 100)%Q.

Definition is_recovered (phone_data : PhoneData) : Prop :=
  recovery_status phone_data = Some RECOVERED.

#[global] Instance is_recovered_dec pd : Decision (is_recovered pd).
Proof. unfold is_recovered. apply _. Defined.

(** The loop [for phone, phone_data in abandon_phone_data.items()] of
    [calculate_corrected_abandonment_rate]. *)
Definition recovered_abandon_calls (abandon_phone_data : gmap string PhoneData) : nat :=
  map_fold (λ _ phone_data acc,
              if decide (is_recovered phone_data)
              then (acc + total_abandon_calls phone_data)%nat else acc)
           0%nat abandon_phone_data.

(** One iteration of the counting loop of
    [calculate_corrected_abandonment_rate]: [(valid_calls,
    total_abandon_calls)]. *)
Definition rate_step (acc : nat * nat) (record : AcdRecord) : nat * nat :=
  match validate_phone_number (acd_phone record) with
  | Some _ =>
      let valid_calls := (acc.1 + 1)%nat in
      if decide (Detector.is_abandon record)
      then (valid_calls, (acc.2 + 1)%nat) else (valid_calls, acc.2)
  | None => acc
  end.

(** [calculate_corrected_abandonment_rate] *)
Definition calculate_corrected_abandonment_rate (acd_data : list AcdRecord)
    (abandon_phone_data : gmap string PhoneData) : Q :=
  let '(valid_calls, total_abandon_calls) := foldl rate_step (0%nat, 0%nat) acd_data in
  let recovered := recovered_abandon_calls abandon_phone_data in
  if decide (0 < valid_calls)%nat
  then round1 (percent_of total_abandon_calls recovered valid_calls)
  else 0%Q.

(** One iteration of the counting loop of [generate_summary_metrics]. *)
Definition summary_step (t : Tally) (record : AcdRecord) : Tally :=
  match validate_phone_number (acd_phone record) with
  | Some _ =>
      let valid_calls := (t_valid_calls t + 1)%nat in
      if decide (acd_answered_hungup record = "ANSWERED") then
        {| t_valid_calls := valid_calls;
           t_valid_answered := t_valid_answered t + 1;
           t_valid_hungup := t_valid_hungup t;
           t_quick_drops := t_quick_drops t;
           t_total_abandon_calls := t_total_abandon_calls t |}
      else if decide (acd_answered_hungup record = "HUNGUP") then
        let wait_seconds := time_to_seconds (acd_wait_time record) in
        if decide (wait_seconds ≤ 27)%nat then
          {| t_valid_calls := valid_calls;
             t_valid_answered := t_valid_answered t;
             t_valid_hungup := t_valid_hungup t + 1;
             t_quick_drops := t_quick_drops t + 1;
             t_total_abandon_calls := t_total_abandon_calls t |}
        else
          {| t_valid_calls := valid_calls;
             t_valid_answered := t_valid_answered t;
             t_valid_hungup := t_valid_hungup t + 1;
             t_quick_drops := t_quick_drops t;
             t_total_abandon_calls := t_total_abandon_calls t + 1 |}
      else
        {| t_valid_calls := valid_calls;
           t_valid_answered := t_valid_answered t;
           t_valid_hungup := t_valid_hungup t;
           t_quick_drops := t_quick_drops t;
           t_total_abandon_calls := t_total_abandon_calls t |}
  | None => t
  end.

Definition tally0 : Tally :=
  {| t_valid_calls := 0; t_valid_answered := 0; t_valid_hungup := 0;
     t_quick_drops := 0; t_total_abandon_calls := 0 |}.

Definition tally (acd_data : list AcdRecord) : Tally := foldl summary_step tally0 acd_data.

(** [len([p for p in abandon_phone_data.values() if ... == 'RECOVERED'])] *)
Definition recovered_phones (abandon_phone_data : gmap string PhoneData) : nat :=
  length (filter is_recovered (map_to_list abandon_phone_data).*2).

(** [generate_summary_metrics].  The recovered phones are among the
    entries, so the subtraction on [nat] is the subtraction of the source. *)
Definition generate_summary_metrics (acd_data : list AcdRecord)
    (abandon_phone_data : gmap string PhoneData) : SummaryMetrics :=
  let t := tally acd_data in
  let unique := size abandon_phone_data in
  let recovered := recovered_phones abandon_phone_data in
  {| total_valid_calls := t_valid_calls t;
     total_answered_calls := t_valid_answered t;
     total_hungup_calls := t_valid_hungup t;
     quick_drops := t_quick_drops t;
     abandon_calls_gt27 := t_total_abandon_calls t;
     unique_abandon_phones := unique;
     unique_phones_recovered := recovered;
     unique_phones_needing := unique - recovered;
     abandonment_rate :=
       calculate_corrected_abandonment_rate acd_data abandon_phone_data |}.

(** [validate_final_metrics]: the four checks in order, [true] for the
    passing message and [false] for the CRITICAL one. *)
Definition validate_final_metrics (metrics : SummaryMetrics) : list bool :=
  [ bool_decide (total_answered_calls metrics + total_hungup_calls metrics
                 = total_valid_calls metrics)%nat;
    bool_decide (quick_drops metrics + abandon_calls_gt27 metrics
                 = total_hungup_calls metrics)%nat;
    bool_decide (unique_phones_recovered metrics + unique_phones_needing metrics
                 = unique_abandon_phones metrics)%nat;
    negb (bool_decide (abandonment_rate metrics < 0
                       ∨ 100 < abandonment_rate metrics)%Q) ].

Section WithRuntime.
Context `{Runtime}.

(** The rows kept in [valid_data]: a valid phone and a valid timestamp. *)
Definition valid_row (record : AcdRecord) : option ValidRow :=
  match validate_phone_number (acd_phone record) with
  | Some _ =>
      match validate_timestamp (acd_call_time record) with
      | Some call_datetime =>
          Some {| vr_record := record; vr_parsed_date := call_datetime;
                  vr_business_date := convert_to_business_date call_datetime |}
      | None => None
      end
  | None => None
  end.

Definition valid_data (acd_data : list AcdRecord) : list ValidRow :=
  omap valid_row acd_data.

End WithRuntime.

(** One iteration of the loop that fills [phones_by_date].  The guard
    [if business_date:] always passes: a date is truthy.  The dictionary is
    read in the order of [map_to_list], the source reads it in insertion
    order; the lists of phones agree up to that order. *)
Definition phones_by_date_step (phone : string) (phone_data : PhoneData)
    (phones_by_date : gmap Z DayPhones) : gmap Z DayPhones :=
  let bd := first_abandon_business_date phone_data in
  let current :=
    default {| day_phones := []; day_recovered := 0 |} (phones_by_date !! bd) in
  <[bd := {| day_phones := day_phones current ++ [phone];
             day_recovered :=
               if decide (is_recovered phone_data)
               then (day_recovered current + 1)%nat else day_recovered current |}]>
    phones_by_date.

Definition phones_by_date (abandon_phone_data : gmap string PhoneData) : gmap Z DayPhones :=
  map_fold phones_by_date_step ∅ abandon_phone_data.

(** [phones_by_date.get(business_date, {'phones': [], 'recovered': 0})] *)
Definition day_phone_data (abandon_phone_data : gmap string PhoneData) (bd : Z) : DayPhones :=
  default {| day_phones := []; day_recovered := 0 |}
          (phones_by_date abandon_phone_data !! bd).

(** The sum [recovered_abandon_calls_today]. *)
Definition recovered_abandon_calls_today (abandon_phone_data : gmap string PhoneData)
    (phones : list string) : nat :=
  foldr (λ phone acc,
           match abandon_phone_data !! phone with
           | Some phone_data =>
               if decide (is_recovered phone_data)
               then (total_abandon_calls phone_data + acc)%nat else acc
           | None => acc
           end) 0%nat phones.

Definition flag_is (flag : string) (v : ValidRow) : Prop :=
  acd_answered_hungup (vr_record v) = flag.

#[global] Instance flag_is_dec flag v : Decision (flag_is flag v).
Proof. unfold flag_is. apply _. Defined.

Definition on_date (bd : Z) (v : ValidRow) : Prop := vr_business_date v = bd.

#[global] Instance on_date_dec bd v : Decision (on_date bd v).
Proof. unfold on_date. apply _. Defined.

Definition is_quick_drop (v : ValidRow) : Prop :=
  (time_to_seconds (acd_wait_time (vr_record v)) ≤ 27)%nat.

#[global] Instance is_quick_drop_dec v : Decision (is_quick_drop v).
Proof. unfold is_quick_drop. apply _. Defined.

(** The body of the loop over [daily_groups]. *)
Definition daily_row (abandon_phone_data : gmap string PhoneData) (bd : Z)
    (day_data : list ValidRow) : DailyRow :=
  let total_calls := length day_data in
  let hungup := filter (flag_is "HUNGUP") day_data in
  let quick_drops := length (filter is_quick_drop hungup) in
  let abandon_calls := length (filter (λ v, ¬ is_quick_drop v) hungup) in
  let day := day_phone_data abandon_phone_data bd in
  let unique_today := length (day_phones day) in
  let recovered_today := day_recovered day in
  let recovered_calls_today :=
    recovered_abandon_calls_today abandon_phone_data (day_phones day) in
  {| row_business_date := bd;
     row_total_calls := total_calls;
     row_answered_calls := length (filter (flag_is "ANSWERED") day_data);
     row_hungup_calls := length hungup;
     row_quick_drops := quick_drops;
     row_abandon_calls := abandon_calls;
     row_unique_abandon_phones := unique_today;
     row_recovered_phones := recovered_today;
     row_phones_needing_calls := unique_today - recovered_today;
     row_abandonment_rate :=
       if decide (0 < total_calls)%nat
       then percent_of abandon_calls recovered_calls_today total_calls
       else 0%Q |}.

Definition row_le (r1 r2 : DailyRow) : Prop :=
  row_business_date r1 ≤ row_business_date r2.

#[global] Instance row_le_dec r1 r2 : Decision (row_le r1 r2).
Proof. unfold row_le. apply _. Defined.

Section WithRuntime.
Context `{Runtime}.

(** The keys of [valid_df.groupby('business_date')], in the ascending
    order in which pandas yields the groups. *)
Definition group_keys (valid : list ValidRow) : list Z :=
  merge_sort Z.le (remove_dups (vr_business_date <$> valid)).

(** [create_daily_breakdown_report] *)
Definition create_daily_breakdown_report (acd_data : list AcdRecord)
    (abandon_phone_data : gmap string PhoneData) : list DailyRow :=
  let valid := valid_data acd_data in
  match valid with
  | [] => []
  | _ =>
      let daily_metrics :=
        (λ bd, daily_row abandon_phone_data bd (filter (on_date bd) valid))
          <$> group_keys valid in
      merge_sort row_le daily_metrics
  end.

End WithRuntime.
End Metrics.

(** ** The analysis run *)

Module Pipeline.
Section WithRuntime.
Context `{Runtime}.

(** The aggregates [create_excel_reports] works with: abandon detection,
    then the recovery search. *)
Definition aggregates (acd_data : list AcdRecord) (call_data : list CallRecord)
    : gmap string PhoneData :=
  Matcher.find_recovery_calls
    (Detector.extract_abandon_phone_numbers acd_data) acd_data call_data.

Definition summary (acd_data : list AcdRecord) (call_data : list CallRecord)
    : SummaryMetrics :=
  Metrics.generate_summary_metrics acd_data (aggregates acd_data call_data).

Definition daily (acd_data : list AcdRecord) (call_data : list CallRecord)
    : list DailyRow :=
  Metrics.create_daily_breakdown_report acd_data (aggregates acd_data call_data).

End WithRuntime.
End Pipeline.

(** ** What a log says about a phone *)

Module Reading.
Import Normalizer.

(** The abandon calls recorded for a phone, none when it has no entry. *)
Definition events_of (abandon_phone_data : gmap string PhoneData) (p : string)
    : list AbandonCall :=
  from_option abandon_calls [] (abandon_phone_data !! p).

(** A candidate whose disposition is in the success list. *)
Definition is_success (candidate : option RecoveryCall) : Prop :=
  match candidate with
  | Some rc => rc_disposition rc ∈ Matcher.successful_dispositions
  | None => False
  end.

#[global] Instance is_success_dec candidate : Decision (is_success candidate).
Proof. destruct candidate; simpl; apply _. Defined.

(** An entry without its two recovery keys. *)
Definition abandon_part (pd : PhoneData) : PhoneData :=
  {| phone := phone pd; original_phone := original_phone pd;
     first_abandon_time := first_abandon_time pd;
     first_abandon_time_str := first_abandon_time_str pd;
     first_abandon_business_date := first_abandon_business_date pd;
     abandon_calls := abandon_calls pd;
     total_abandon_calls := total_abandon_calls pd;
     recovery_call := None; recovery_status := None |}.

(** The abandon calls counted over all entries. *)
Definition total_recorded (abandon_phone_data : gmap string PhoneData) : nat :=
  sum_list_with (λ kv, total_abandon_calls kv.2) (map_to_list abandon_phone_data).

(** The entries whose first abandon falls on business date [bd]. *)
Definition cohort (abandon_phone_data : gmap string PhoneData) (bd : Z)
    : list (string * PhoneData) :=
  filter (λ kv, first_abandon_business_date kv.2 = bd)
         (map_to_list abandon_phone_data).

(** The recovered entries of a list of entries. *)
Definition recovered_of (entries : list (string * PhoneData))
    : list (string * PhoneData) :=
  filter (λ kv, Metrics.is_recovered kv.2) entries.

(** The record's phone normalizes. *)
Definition has_valid_phone (record : AcdRecord) : Prop :=
  is_Some (validate_phone_number (acd_phone record)).

#[global] Instance has_valid_phone_dec record : Decision (has_valid_phone record).
Proof. unfold has_valid_phone. apply _. Defined.

(** The classes of records the summary loop counts. *)
Definition counts_answered (record : AcdRecord) : Prop :=
  has_valid_phone record ∧ acd_answered_hungup record = "ANSWERED".

Definition counts_hungup (record : AcdRecord) : Prop :=
  has_valid_phone record ∧ acd_answered_hungup record = "HUNGUP".

Definition counts_quick_drop (record : AcdRecord) : Prop :=
  counts_hungup record ∧ (time_to_seconds (acd_wait_time record) ≤ 27)%nat.

Definition counts_abandon (record : AcdRecord) : Prop :=
  counts_hungup record ∧ (27 < time_to_seconds (acd_wait_time record))%nat.

(** A valid phone with a flag that is neither ANSWERED nor HUNGUP. *)
Definition counts_other (record : AcdRecord) : Prop :=
  has_valid_phone record
  ∧ acd_answered_hungup record ≠ "ANSWERED"
  ∧ acd_answered_hungup record ≠ "HUNGUP".

#[global] Instance counts_answered_dec record : Decision (counts_answered record).
Proof. unfold counts_answered. apply _. Defined.

#[global] Instance counts_hungup_dec record : Decision (counts_hungup record).
Proof. unfold counts_hungup. apply _. Defined.

#[global] Instance counts_quick_drop_dec record : Decision (counts_quick_drop record).
Proof. unfold counts_quick_drop. apply _. Defined.

#[global] Instance counts_abandon_dec record : Decision (counts_abandon record).
Proof. unfold counts_abandon. apply _. Defined.

#[global] Instance counts_other_dec record : Decision (counts_other record).
Proof. unfold counts_other. apply _. Defined.

(** A counter after a record: one more when the record is in the class. *)
Definition add_record (n : nat) (P : AcdRecord → Prop) `{∀ r, Decision (P r)}
    (record : AcdRecord) : nat :=
  if decide (P record) then (n + 1)%nat else n.

(** The record with another "Call Time" cell. *)
Definition with_call_time (c : cell) (record : AcdRecord) : AcdRecord :=
  {| acd_phone := acd_phone record;
     acd_answered_hungup := acd_answered_hungup record;
     acd_wait_time := acd_wait_time record;
     acd_call_time := c;
     acd_queue_name := acd_queue_name record;
     acd_username := acd_username record;
     acd_disposition := acd_disposition record;
     acd_talk_time := acd_talk_time record |}.

Section WithRuntime.
Context `{Runtime}.

(** The abandon call a record is for phone [p]: its phone normalizes to
    [p], its timestamp is valid, it is HUNGUP after more than 27 seconds. *)
Definition abandon_event_for (p : string) (record : AcdRecord) : option AbandonCall :=
  match validate_phone_number (acd_phone record),
        validate_timestamp (acd_call_time record) with
  | Some q, Some call_datetime =>
      if decide (q = p ∧ Detector.is_abandon record)
      then Some (Detector.abandon_call_of record call_datetime) else None
  | _, _ => None
  end.

Definition abandon_events (p : string) (acd_data : list AcdRecord) : list AbandonCall :=
  omap (abandon_event_for p) acd_data.

(** The entry of phone [p] agrees with a list of abandon calls: it lists
    them and counts them, its first-abandon time is their minimum and its
    business date belongs to that time; no recovery key is set yet. *)
Definition agrees (events : list AbandonCall) (p : string) (pd : PhoneData) : Prop :=
  abandon_calls pd = events
  ∧ events ≠ []
  ∧ total_abandon_calls pd = length events
  ∧ Forall (λ c, first_abandon_time pd ≤ call_time c) events
  ∧ Exists (λ c, call_time c = first_abandon_time pd) events
  ∧ first_abandon_business_date pd
    = convert_to_business_date (first_abandon_time pd)
  ∧ phone pd = p
  ∧ recovery_call pd = None
  ∧ recovery_status pd = None.

(** The entry of phone [p] agrees with the log. *)
Definition tracks (acd_data : list AcdRecord) (p : string) (pd : PhoneData) : Prop :=
  agrees (abandon_events p acd_data) p pd.

(** A dictionary agrees with a list of abandon calls at phone [p]. *)
Definition agrees_at (abandon_phone_data : gmap string PhoneData)
    (events : list AbandonCall) (p : string) : Prop :=
  match abandon_phone_data !! p with
  | Some pd => agrees events p pd
  | None => events = []
  end.

End WithRuntime.
End Reading.

(** ** A sample run

    The run of 2025-08-18, 12:00:00, over logs whose "Call Time" cells are
    typed; it has no text to parse. *)

Module Scenario.

(** 2025-08-18 is day 20318 of the epoch. *)
Definition aug18 (h m s : Z) : Z :=
  (20318 * 86400 + h * 3600 + m * 60 + s) * 1000000000.

Definition days (n : Z) : Z := n * ns_per_day.

Definition runtime : Runtime :=
  {| now := aug18 12 0 0;
     to_datetime_12h := λ _, None;
     to_datetime := λ _, None |}.

Definition inbound (raw_phone flag wait : string) (t : Z) (code : string) : AcdRecord :=
  {| acd_phone := raw_phone; acd_answered_hungup := flag;
     acd_wait_time := wait; acd_call_time := Stamp t;
     acd_queue_name := "Support"; acd_username := "agent1";
     acd_disposition := code; acd_talk_time := "00:02:10" |}.

Definition outbound (raw_phone : string) (t : Z) (code : string) : CallRecord :=
  {| out_phone := raw_phone; out_call_type := "outbound.manual.dial";
     out_system_disposition := "CONNECTED"; out_call_time := Stamp t;
     out_disposition := code; out_username := "agent2";
     out_talk_time := "00:01:30" |}.

Definition customer : string := "5551234567".

(** HUNGUP after 45 seconds, at 10:00:00. *)
Definition abandon_10h : AcdRecord :=
  inbound "+1 (555) 123-4567" "HUNGUP" "00:00:45" (aug18 10 0 0) "".

(** HUNGUP after 50 seconds, at 09:00:00. *)
Definition abandon_9h : AcdRecord :=
  inbound "555-123-4567" "HUNGUP" "00:00:50" (aug18 9 0 0) "".

(** HUNGUP after 40 seconds the day before, at 15:00:00. *)
Definition abandon_eve : AcdRecord :=
  inbound "5551234567" "HUNGUP" "00:00:40" (aug18 15 0 0 - days 1) "".

(** HUNGUP after 20 seconds. *)
Definition quick_drop : AcdRecord :=
  inbound "5551234567" "HUNGUP" "00:00:20" (aug18 10 30 0) "".

(** ANSWERED at 11:00:00 with a disposition of the success list. *)
Definition answered_MI : AcdRecord :=
  inbound "5551234567" "ANSWERED" "00:00:05" (aug18 11 0 0) "MI".

(** ANSWERED at 11:00:00 with a disposition outside the success list. *)
Definition answered_callback : AcdRecord :=
  inbound "5551234567" "ANSWERED" "00:00:05" (aug18 11 0 0) "Callback".


(** ANSWERED three years before the run. *)
Definition stale : AcdRecord :=
  inbound "5551234567" "ANSWERED" "00:00:05" (aug18 11 0 0 - days 1095) "MI".

(** Connected manual dials at 11:30:00. *)
Definition dial_PQC : CallRecord := outbound "5551234567" (aug18 11 30 0) "PQC".
Definition dial_busy : CallRecord := outbound "5551234567" (aug18 11 30 0) "Busy".

(** The logs of the sample run. *)
Definition log_out_of_order : list AcdRecord := [abandon_10h; abandon_9h].
Definition log_two_days : list AcdRecord := [abandon_10h; abandon_eve].
Definition log_attempted : list AcdRecord := [abandon_10h; answered_callback].
Definition log_recovered : list AcdRecord :=
  [abandon_10h; answered_callback; answered_MI].
Definition log_clean : list AcdRecord := [abandon_10h; answered_MI].

End Scenario.

(** ** Column access

    A row as [safe_get_column] sees it: the labels of [record.index] in
    order, each with its cell.  Labels are strings or NaN; a NaN label, and a
    NaN cell, is [None].  The labels of a row are distinct. *)

Module Columns.

(** [c.lower()] for one ASCII character. *)
Definition lower_char (c : ascii) : ascii :=
  let n := Ascii.nat_of_ascii c in
  if (65 <=? n)%nat && (n <=? 90)%nat then Ascii.ascii_of_nat (n + 32) else c.

(** [s.lower()] *)
Fixpoint lower (s : string) : string :=
  match s with
  | EmptyString => EmptyString
  | String c s' => String (lower_char c) (lower s')
  end.

(** The new label of [clean_dataframe_columns]: [''] for a NaN label, the
    stripped text otherwise. *)
Definition clean_label (col : option string) : option string :=
  match col with
  | None => Some ""
  | Some text => Some (PyStr.strip text)
  end.

(** [clean_dataframe_columns], on the labels of a frame with [n_rows] rows:
    an empty frame is returned as it is. *)
Definition clean_dataframe_columns (columns : list (option string)) (n_rows : nat)
    : list (option string) :=
  if decide (n_rows = 0%nat ∨ columns = []) then columns
  else clean_label <$> columns.

(** The cell of the first string label that passes a test. *)
Fixpoint first_column {V} (test : string → bool)
    (record : list (option string * option V)) : option (option V) :=
  match record with
  | [] => None
  | (Some col, value) :: rest =>
      if test col then Some value else first_column test rest
  | (None, _) :: rest => first_column test rest
  end.

(** [value if not pd.isna(value) else default] *)
Definition or_default {V} (default : V) (value : option V) : V :=
  from_option id default value.

(** The test of the fuzzy loop: [column_name.lower() in col.lower()]. *)
Definition fuzzy (column_name col : string) : bool :=
  PyStr.contains (lower column_name) (lower col).

(** [safe_get_column] *)
Definition safe_get_column {V} (record : list (option string * option V))
    (column_name : string) (default : V) : V :=
  match first_column (String.eqb column_name) record with
  | Some value => or_default default value
  | None =>
      match first_column (fuzzy column_name) record with
      | Some value => or_default default value
      | None => default
      end
  end.

End Columns.

(** ** Report sheets and the per-date phone count *)

(** The priority levels of the assignment sheet. *)
Inductive Priority := High | Medium | Normal.

(** A row of the 'Team Leader Assignment' sheet, without its notes text. *)
Record AssignmentRow := {
  ar_phone : string;
  ar_priority : Priority;
  ar_total_abandon_calls : nat;
  ar_first_abandon_time : cell;
  ar_first_abandon_business_date : Z;
  ar_recovery_status : option Status
}.

(** A row of the 'Recovery Details' sheet. *)
Record RecoveryRow := {
  rr_phone : string;
  rr_first_abandon_time : cell;
  rr_recovery_time : cell;
  rr_type : Direction;
  rr_successful : bool;
  rr_username : string;
  rr_talk_time : string;
  rr_disposition : string;
  rr_recovery_status : option Status
}.

Module Reports.
Import Normalizer.

(** The truth value of a "Call Time" cell: only the empty text is false. *)
Definition truthy (c : cell) : Prop := c ≠ Text "".

#[global] Instance truthy_dec c : Decision (truthy c).
Proof. unfold truthy. apply _. Defined.

(** [priority] of the assignment loop. *)
Definition priority_level (total : nat) : Priority :=
  if decide (2 < total)%nat then High
  else if decide (1 < total)%nat then Medium else Normal.

(** The filter of the assignment loop:
    [recovery_status in ['NEEDS_OUTBOUND', 'ATTEMPTED']]. *)
Definition needs_assignment (phone_data : PhoneData) : Prop :=
  recovery_status phone_data ∈ [Some NEEDS_OUTBOUND; Some ATTEMPTED].

#[global] Instance needs_assignment_dec pd : Decision (needs_assignment pd).
Proof. unfold needs_assignment. apply _. Defined.

Definition assignment_row (kv : string * PhoneData) : AssignmentRow :=
  {| ar_phone := kv.1;
     ar_priority := priority_level (total_abandon_calls kv.2);
     ar_total_abandon_calls := total_abandon_calls kv.2;
     ar_first_abandon_time := first_abandon_time_str kv.2;
     ar_first_abandon_business_date := first_abandon_business_date kv.2;
     ar_recovery_status := recovery_status kv.2 |}.

(** [assignment_data] of [create_excel_reports], before the sheet is
    sorted; the entries are read in the order of [map_to_list]. *)
Definition assignment_data (abandon_phone_data : gmap string PhoneData)
    : list AssignmentRow :=
  assignment_row <$> filter (λ kv, needs_assignment kv.2)
                       (map_to_list abandon_phone_data).

Definition recovery_row (kv : string * PhoneData) : option RecoveryRow :=
  match recovery_call kv.2 with
  | Some rc =>
      Some {| rr_phone := kv.1;
              rr_first_abandon_time := first_abandon_time_str kv.2;
              rr_recovery_time := rc_time_str rc;
              rr_type := rc_type rc;
              rr_successful := bool_decide (Metrics.is_recovered kv.2);
              rr_username := rc_username rc;
              rr_talk_time := rc_talk_time rc;
              rr_disposition := rc_disposition rc;
              rr_recovery_status := recovery_status kv.2 |}
  | None => None
  end.

(** [recovery_data] of [create_excel_reports]: a row for each entry with a
    recovery call, the entries read in the order of [map_to_list]. *)
Definition recovery_rows (abandon_phone_data : gmap string PhoneData)
    : list RecoveryRow :=
  omap recovery_row (map_to_list abandon_phone_data).

Section WithRuntime.
Context `{Runtime}.

(** One iteration of the loop of [get_unique_abandon_phones_for_date]. *)
Definition unique_phones_step (target_date : Z) (unique_abandon_phones : gset string)
    (record : AcdRecord) : gset string :=
  if decide (acd_answered_hungup record = "HUNGUP"
             ∧ truthy (acd_call_time record)
             ∧ (27 < time_to_seconds (acd_wait_time record))%nat) then
    match validate_timestamp (acd_call_time record) with
    | Some call_datetime =>
        if decide (convert_to_business_date call_datetime = target_date) then
          match validate_phone_number (acd_phone record) with
          | Some normalized_phone => {[normalized_phone]} ∪ unique_abandon_phones
          | None => unique_abandon_phones
          end
        else unique_abandon_phones
    | None => unique_abandon_phones
    end
  else unique_abandon_phones.

(** [get_unique_abandon_phones_for_date] *)
Definition get_unique_abandon_phones_for_date (acd_data : list AcdRecord)
    (target_date : option Z) : nat :=
  match target_date with
  | None => 0%nat
  | Some d => size (foldl (unique_phones_step d) ∅ acd_data)
  end.

End WithRuntime.
End Reports.

(** The order of the rows is total and transitive. *)
#[global] Instance row_le_total : Total Metrics.row_le.
Proof. intros r1 r2. unfold Metrics.row_le. lia. Qed.

#[global] Instance row_le_trans : Transitive Metrics.row_le.
Proof. intros r1 r2 r3. unfold Metrics.row_le. lia. Qed.

(** ** Readings for the wider properties *)

Module Survey.
Import Normalizer.

(** The candidates of a log, in log order. *)
Definition candidates {R} (candidate : R → option RecoveryCall) (log : list R)
    : list RecoveryCall :=
  omap candidate log.

(** The first candidate whose disposition is in the success list. *)
Definition first_success (cands : list RecoveryCall) : option RecoveryCall :=
  head (filter (λ rc, rc_disposition rc ∈ Matcher.successful_dispositions) cands).

(** The entry after unsuccessful candidates: the first of them is recorded as
    an attempt unless the entry already has a recovery call. *)
Definition attempted (phone_data : PhoneData) (cands : list RecoveryCall) : PhoneData :=
  match recovery_call phone_data, head cands with
  | None, Some rc =>
      set_recovery_status ATTEMPTED (set_recovery_call rc phone_data)
  | _, _ => phone_data
  end.

(** The entry the candidates of a phone decide: RECOVERED with the first
    successful candidate, NEEDS_OUTBOUND otherwise. *)
Definition decided (phone_data : PhoneData) (cands : list RecoveryCall) : PhoneData :=
  match first_success cands with
  | Some rc => set_recovery_status RECOVERED (set_recovery_call rc phone_data)
  | None => set_recovery_status NEEDS_OUTBOUND (attempted phone_data cands)
  end.

(** An entry has an abandon call on business date [bd]. *)
Definition abandons_on (bd : Z) (phone_data : PhoneData) : Prop :=
  Exists (λ c, business_date c = bd) (abandon_calls phone_data).

#[global] Instance abandons_on_dec bd pd : Decision (abandons_on bd pd).
Proof. unfold abandons_on. apply _. Defined.

(** Text of colon-free fields joined by colons. *)
Definition hms (p0 p1 p2 : string) : string := p0 ++ ":" ++ p1 ++ ":" ++ p2.

Section WithRuntime.
Context `{Runtime}.

(** The candidates of a phone: those of the inbound log, then those of the
    outbound log. *)
Definition all_candidates (acd_data : list AcdRecord) (call_data : list CallRecord)
    (p : string) (phone_data : PhoneData) : list RecoveryCall :=
  (candidates (Matcher.inbound_candidate p (first_abandon_time phone_data)) acd_data
   ++ candidates (Matcher.outbound_candidate p (first_abandon_time phone_data))
        call_data)%list.

(** The raw fields an entry keeps for display normalize to the values it is
    keyed and dated by. *)
Definition display_agrees (p : string) (pd : PhoneData) : Prop :=
  validate_phone_number (original_phone pd) = Some p
  ∧ validate_timestamp (first_abandon_time_str pd) = Some (first_abandon_time pd).

(** The records the detector tracks: valid phone, valid timestamp, HUNGUP
    after more than 27 seconds. *)
Definition tracked (record : AcdRecord) : Prop :=
  is_Some (validate_phone_number (acd_phone record))
  ∧ is_Some (validate_timestamp (acd_call_time record))
  ∧ Detector.is_abandon record.

#[global] Instance tracked_dec record : Decision (tracked record).
Proof. unfold tracked. apply _. Defined.

End WithRuntime.
End Survey.

(** * Properties *)

(** ** Field normalizer *)

Section PyStrFacts.

Lemma list_of_filter_digits (s : string) :
  list_ascii_of_string (PyStr.filter_digits s)
  = filter (λ c, PyStr.isdigit_char c) (list_ascii_of_string s).
Proof.
  induction s as [|c s IH]; simpl; [reflexivity|].
  rewrite filter_cons. destruct (PyStr.isdigit_char c) eqn:Hc; simpl.
  - now rewrite IH.
  - exact IH.
Qed.

Lemma length_list_of_string (s : string) :
  length (list_ascii_of_string s) = String.length s.
Proof. induction s; simpl; congruence. Qed.

Lemma list_of_drop (n : nat) (s : string) :
  list_ascii_of_string (PyStr.drop n s) = drop n (list_ascii_of_string s).
Proof.
  revert s. induction n as [|n IH]; intros [|c s]; simpl; try reflexivity.
  apply IH.
Qed.

Lemma last_chars_list (n : nat) (s : string) :
  PyStr.last_chars n s
  = string_of_list_ascii
      (drop (length (list_ascii_of_string s) - n) (list_ascii_of_string s)).
Proof.
  unfold PyStr.last_chars. rewrite <- list_of_drop, length_list_of_string.
  now rewrite string_of_list_ascii_of_string.
Qed.

Lemma all_digits_filter_digits (s : string) : PyStr.all_digits (PyStr.filter_digits s) = true.
Proof.
  induction s as [|c s IH]; simpl; [reflexivity|].
  destruct (PyStr.isdigit_char c) eqn:Hc; simpl; [rewrite Hc|]; exact IH.
Qed.

Lemma split_not_nil (sep : ascii) (s : string) : PyStr.split sep s ≠ [].
Proof.
  destruct s as [|c s]; simpl; [discriminate|].
  destruct (decide (c = sep)); [discriminate|].
  destruct (PyStr.split sep s); discriminate.
Qed.

End PyStrFacts.

(** C7. [validate_phone_number] keeps exactly the digit characters of the raw
    string, rejects it when fewer than 10 or more than 15 digits remain, and
    otherwise returns the last 10 of them; so a raw string whose digits end
    in the ten digits [D], behind at most five leading digits and any
    formatting, normalizes to [D]. *)
Theorem C7_validate_phone_number (raw : string) :
  let digits := filter (λ c, PyStr.isdigit_char c) (list_ascii_of_string raw) in
  Normalizer.validate_phone_number raw
  = (if decide (length digits < 10 ∨ 15 < length digits)%nat then None
     else Some (string_of_list_ascii (drop (length digits - 10) digits)))
  ∧ (∀ pre D : list ascii,
       digits = (pre ++ D)%list → length D = 10%nat → (length pre ≤ 5)%nat →
       Normalizer.validate_phone_number raw = Some (string_of_list_ascii D)).
Proof.
  intros digits.
  assert (Hlen : String.length (PyStr.filter_digits raw) = length digits).
  { rewrite <- length_list_of_string. unfold digits.
    now rewrite list_of_filter_digits. }
  assert (Hspec : Normalizer.validate_phone_number raw
    = (if decide (length digits < 10 ∨ 15 < length digits)%nat then None
       else Some (string_of_list_ascii (drop (length digits - 10) digits)))).
  { unfold Normalizer.validate_phone_number.
    destruct (decide (raw = "")) as [->|Hne].
    - simpl. reflexivity.
    - rewrite Hlen.
      destruct (decide (length digits < 10)%nat) as [Hlt|Hge].
      + rewrite decide_True by (left; exact Hlt). reflexivity.
      + destruct (decide (15 < length digits)%nat) as [Hgt|Hle].
        * rewrite decide_True by (right; exact Hgt). reflexivity.
        * rewrite decide_False by lia.
          rewrite last_chars_list, list_of_filter_digits. reflexivity. }
  split; [exact Hspec|].
  intros pre D Hd HD Hpre. rewrite Hspec.
  assert (Hl : length digits = (length pre + 10)%nat)
    by (rewrite Hd, length_app; lia).
  rewrite decide_False by lia.
  rewrite Hl, Hd. replace (length pre + 10 - 10)%nat with (length pre) by lia.
  now rewrite drop_app_length.
Qed.

Lemma C7_validate_phone_number_witness :
  Normalizer.validate_phone_number "+1 (555) 123-4567" = Some "5551234567".
Proof.
  apply (proj2 (C7_validate_phone_number "+1 (555) 123-4567")
           (list_ascii_of_string "1") (list_ascii_of_string "5551234567"));
    [reflexivity | reflexivity | simpl; lia].
Defined.

(** C10. [time_to_seconds] is defined on every string and its value is a
    count of seconds between 0 and 24*3600 + 59*60 + 59.  Text that does not split into
    exactly three colon-separated fields gives 0.  With three fields, one
    that is not a digit string counts as 0 and a digit string counts as its
    number; the result is 0 when the hours exceed 24 or the minutes or
    seconds exceed 59, and hours*3600 + minutes*60 + seconds otherwise. *)
Theorem C10_time_to_seconds_total (time_str : string) :
  (Normalizer.time_to_seconds time_str ≤ 24 * 3600 + 59 * 60 + 59)%nat
  ∧ (length (PyStr.split ":" (PyStr.strip time_str)) ≠ 3%nat →
     Normalizer.time_to_seconds time_str = 0%nat)
  ∧ (∀ p0 p1 p2,
       PyStr.split ":" (PyStr.strip time_str) = [p0; p1; p2] →
       let hours := Normalizer.field_value p0 in
       let minutes := Normalizer.field_value p1 in
       let seconds := Normalizer.field_value p2 in
       Normalizer.time_to_seconds time_str
       = if decide (24 < hours ∨ 59 < minutes ∨ 59 < seconds)%nat then 0%nat
         else (hours * 3600 + minutes * 60 + seconds)%nat)
  ∧ (∀ p, PyStr.isdigit p = false → Normalizer.field_value p = 0%nat)
  ∧ (∀ p, PyStr.isdigit p = true → Normalizer.field_value p = PyStr.int p).
Proof.
  assert (Hthree : ∀ p0 p1 p2,
    PyStr.split ":" (PyStr.strip time_str) = [p0; p1; p2] →
    Normalizer.time_to_seconds time_str
    = if decide (24 < Normalizer.field_value p0 ∨ 59 < Normalizer.field_value p1
                 ∨ 59 < Normalizer.field_value p2)%nat then 0%nat
      else (Normalizer.field_value p0 * 3600 + Normalizer.field_value p1 * 60
            + Normalizer.field_value p2)%nat).
  { intros p0 p1 p2 Hs. unfold Normalizer.time_to_seconds.
    destruct (decide (time_str = "00:00:00" ∨ time_str = "")) as [[->| ->]|Hne].
    - vm_compute in Hs. injection Hs as <- <- <-. reflexivity.
    - vm_compute in Hs. discriminate.
    - now rewrite Hs. }
  assert (Hother : length (PyStr.split ":" (PyStr.strip time_str)) ≠ 3%nat →
    Normalizer.time_to_seconds time_str = 0%nat).
  { intros Hlen. unfold Normalizer.time_to_seconds.
    destruct (decide _) as [|_]; [reflexivity|].
    destruct (PyStr.split ":" (PyStr.strip time_str)) as [|p0 [|p1 [|p2 [|p3 l]]]];
      try reflexivity.
    now contradict Hlen. }
  repeat split.
  - destruct (PyStr.split ":" (PyStr.strip time_str))
      as [|p0 [|p1 [|p2 [|p3 l]]]] eqn:Hs;
      try (rewrite Hother by (rewrite ?Hs; simpl; lia); lia).
    rewrite (Hthree p0 p1 p2) by (rewrite ?Hs; reflexivity).
    destruct (decide _); lia.
  - exact Hother.
  - exact Hthree.
  - intros p Hp. unfold Normalizer.field_value. now rewrite Hp.
  - intros p Hp. unfold Normalizer.field_value. now rewrite Hp.
Qed.

Lemma C10_time_to_seconds_total_witness :
  Normalizer.time_to_seconds "1:xx:05" = 3605%nat
  ∧ Normalizer.time_to_seconds "12:30" = 0%nat
  ∧ Normalizer.field_value "xx" = 0%nat
  ∧ Normalizer.field_value "05" = 5%nat.
Proof.
  destruct (C10_time_to_seconds_total "1:xx:05") as (_ & _ & Hthree & Hnot & Hdig).
  destruct (C10_time_to_seconds_total "12:30") as (_ & Hother & _).
  split; [|split; [|split]].
  - rewrite (Hthree "1" "xx" "05" eq_refl). reflexivity.
  - apply Hother. vm_compute. lia.
  - apply Hnot. reflexivity.
  - rewrite Hdig by reflexivity. reflexivity.
Defined.

(** ** Abandon detector *)

Section DetectorFacts.
Context `{Runtime}.
Import Normalizer Detector Reading.

Lemma track_abandon_calls cur p record t :
  abandon_calls (track_abandon cur p record t)
  = (from_option abandon_calls [] cur ++ [abandon_call_of record t])%list.
Proof. unfold track_abandon. destruct cur; simpl; destruct (decide _); reflexivity. Qed.

Lemma track_abandon_total cur p record t :
  total_abandon_calls (track_abandon cur p record t)
  = (from_option total_abandon_calls 0%nat cur + 1)%nat.
Proof. unfold track_abandon. destruct cur; simpl; destruct (decide _); reflexivity. Qed.

Lemma track_abandon_first cur p record t :
  first_abandon_time (track_abandon cur p record t)
  = Z.min (from_option first_abandon_time t cur) t.
Proof.
  unfold track_abandon. destruct cur; simpl; destruct (decide _); simpl; lia.
Qed.

Lemma track_abandon_business_date cur p record t :
  from_option (λ pd, first_abandon_business_date pd
                     = convert_to_business_date (first_abandon_time pd)) True cur →
  first_abandon_business_date (track_abandon cur p record t)
  = convert_to_business_date (first_abandon_time (track_abandon cur p record t)).
Proof.
  unfold track_abandon. destruct cur; simpl; destruct (decide _); simpl; intros;
    congruence || lia.
Qed.

Lemma track_abandon_keys cur p record t :
  from_option (λ pd, phone pd = p ∧ recovery_call pd = None
                     ∧ recovery_status pd = None) True cur →
  phone (track_abandon cur p record t) = p
  ∧ recovery_call (track_abandon cur p record t) = None
  ∧ recovery_status (track_abandon cur p record t) = None.
Proof.
  unfold track_abandon. destruct cur; simpl; destruct (decide _); simpl; tauto.
Qed.

(** An abandon record is an abandon event for its own phone only. *)
Lemma abandon_event_for_abandon record p t q :
  validate_phone_number (acd_phone record) = Some p →
  validate_timestamp (acd_call_time record) = Some t →
  is_abandon record →
  abandon_event_for q record
  = if decide (p = q) then Some (abandon_call_of record t) else None.
Proof.
  intros Hp Ht Ha. unfold abandon_event_for. rewrite Hp, Ht.
  destruct (decide (p = q)) as [->|Hne].
  - now rewrite decide_True.
  - rewrite decide_False; [reflexivity|tauto].
Qed.

(** One iteration keeps the dictionary in agreement, the events growing by
    the event the record is for that phone. *)
Lemma extract_step_agrees d events record p :
  agrees_at d events p →
  agrees_at (extract_step d record)
    (events ++ from_option (λ c, [c]) [] (abandon_event_for p record)) p.
Proof.
  intros IH. unfold extract_step.
  destruct (validate_phone_number (acd_phone record)) as [q|] eqn:Hq;
    [|unfold abandon_event_for; rewrite Hq; simpl;
      rewrite app_nil_r; exact IH].
  destruct (validate_timestamp (acd_call_time record)) as [t|] eqn:Ht;
    [|unfold abandon_event_for; rewrite Hq, Ht; simpl;
      rewrite app_nil_r; exact IH].
  destruct (decide (is_abandon record)) as [Ha|Hn];
    [|unfold abandon_event_for; rewrite Hq, Ht;
      rewrite decide_False by tauto; simpl; rewrite app_nil_r; exact IH].
  rewrite (abandon_event_for_abandon record q t p Hq Ht Ha).
  unfold agrees_at in *.
  destruct (decide (q = p)) as [->|Hne].
  - rewrite lookup_insert_eq. simpl.
    assert (Hcur : from_option abandon_calls [] (d !! p) = events).
    { destruct (d !! p) as [pd|]; simpl; [apply IH|now rewrite IH]. }
    unfold agrees.
    rewrite track_abandon_calls, track_abandon_total, track_abandon_first.
    rewrite Hcur. split; [reflexivity|].
    split; [intros Hnil; apply app_eq_nil in Hnil as [_ Hnil]; discriminate|].
    split.
    { rewrite length_app. simpl.
      destruct (d !! p) as [pd|]; simpl in *.
      - destruct IH as (_ & _ & Htot & _). rewrite Htot. reflexivity.
      - rewrite IH. reflexivity. }
    split.
    { apply Forall_app. split.
      - destruct (d !! p) as [pd|]; simpl in *.
        + destruct IH as (_ & _ & _ & Hall & _).
          eapply Forall_impl; [exact Hall|]. simpl. intros; lia.
        + rewrite IH. constructor.
      - constructor; [simpl; lia|constructor]. }
    split.
    { apply Exists_app.
      destruct (d !! p) as [pd|]; simpl in *.
      - destruct IH as (_ & _ & _ & _ & Hex & _).
        destruct (decide (t < first_abandon_time pd)) as [Hlt|Hge].
        + right. constructor. simpl. lia.
        + left. eapply Exists_impl; [exact Hex|]. simpl. intros; lia.
      - right. constructor. simpl. lia. }
    rewrite <- track_abandon_first with (p := p) (record := record).
    split.
    { apply track_abandon_business_date.
      destruct (d !! p) as [pd|]; simpl; [apply IH|exact I]. }
    apply track_abandon_keys.
    destruct (d !! p) as [pd|]; simpl; [|exact I].
    destruct IH as (_ & _ & _ & _ & _ & _ & ? & ? & ?). tauto.
  - rewrite lookup_insert_ne by exact Hne. simpl. rewrite app_nil_r. exact IH.
Qed.

(** The entries of the dictionary after the loop agree with the log. *)
Lemma extract_tracks (acd_data : list AcdRecord) (p : string) :
  match extract_abandon_phone_numbers acd_data !! p with
  | Some pd => tracks acd_data p pd
  | None => abandon_events p acd_data = []
  end.
Proof.
  change (agrees_at (extract_abandon_phone_numbers acd_data)
            (abandon_events p acd_data) p).
  unfold extract_abandon_phone_numbers, abandon_events.
  induction acd_data as [|record acd_data IH] using rev_ind.
  { unfold agrees_at. simpl. rewrite lookup_empty. reflexivity. }
  rewrite foldl_snoc, omap_app. simpl.
  replace (match abandon_event_for p record with Some y => [y] | None => [] end)
    with (from_option (λ c, [c]) [] (abandon_event_for p record))
    by (destruct (abandon_event_for p record); reflexivity).
  apply extract_step_agrees. exact IH.
Qed.

Lemma extract_events (acd_data : list AcdRecord) (p : string) :
  events_of (extract_abandon_phone_numbers acd_data) p = abandon_events p acd_data.
Proof.
  unfold events_of. pose proof (extract_tracks acd_data p) as Ht.
  destruct (_ !! p) as [pd|]; simpl; [apply Ht|now rewrite Ht].
Qed.

End DetectorFacts.

(** C3. For an inbound record with a valid phone [p] and a valid timestamp,
    the detector appends the record's abandon call to the calls of [p] if and
    only if the flag is HUNGUP and the wait exceeds 27 seconds, and leaves the
    whole dictionary as it was otherwise; a HUNGUP record with a wait of at
    most 27 seconds adds one to the quick drops of the summary loop, nothing
    to its abandon calls, and changes no entry. *)
Theorem C3_abandon_event_iff `{Runtime} (abandon_phone_data : gmap string PhoneData)
    (t : Tally) (record : AcdRecord) (p : string) (call_datetime : Z) :
  Normalizer.validate_phone_number (acd_phone record) = Some p →
  Normalizer.validate_timestamp (acd_call_time record) = Some call_datetime →
  let after := Detector.extract_step abandon_phone_data record in
  let wait := Normalizer.time_to_seconds (acd_wait_time record) in
  (Reading.events_of after p
   = (Reading.events_of abandon_phone_data p
      ++ [Detector.abandon_call_of record call_datetime])%list
   ↔ acd_answered_hungup record = "HUNGUP" ∧ (27 < wait)%nat)
  ∧ (¬ (acd_answered_hungup record = "HUNGUP" ∧ (27 < wait)%nat) →
     after = abandon_phone_data)
  ∧ (acd_answered_hungup record = "HUNGUP" → (wait ≤ 27)%nat →
     after = abandon_phone_data
     ∧ t_quick_drops (Metrics.summary_step t record) = (t_quick_drops t + 1)%nat
     ∧ t_total_abandon_calls (Metrics.summary_step t record)
       = t_total_abandon_calls t).
Proof.
  intros Hp Ht after wait.
  assert (Hkeep : ¬ Detector.is_abandon record → after = abandon_phone_data).
  { intros Hn. unfold after, Detector.extract_step. rewrite Hp, Ht.
    now rewrite decide_False. }
  split; [split|split].
  - intros Hev. destruct (decide (Detector.is_abandon record)) as [Ha|Hn];
      [exact Ha|].
    rewrite (Hkeep Hn) in Hev. apply (f_equal length) in Hev.
    rewrite length_app in Hev. simpl in Hev. lia.
  - intros Ha. unfold after, Detector.extract_step. rewrite Hp, Ht.
    rewrite decide_True by exact Ha.
    unfold Reading.events_of. rewrite lookup_insert_eq. simpl.
    apply track_abandon_calls.
  - exact Hkeep.
  - intros Hflag Hwait. split; [apply Hkeep; intros [_ Hgt]; unfold wait in *; lia|].
    unfold Metrics.summary_step. rewrite Hp, Hflag.
    rewrite decide_False by discriminate. rewrite decide_True by reflexivity.
    rewrite decide_True by exact Hwait. simpl. split; reflexivity.
Qed.

Lemma C3_abandon_event_iff_witness :
  Reading.events_of
    (Detector.extract_step (H := Scenario.runtime) ∅ Scenario.abandon_10h)
    Scenario.customer
  = [Detector.abandon_call_of Scenario.abandon_10h (Scenario.aug18 10 0 0)]
  ∧ Detector.extract_step (H := Scenario.runtime) ∅ Scenario.quick_drop = ∅
  ∧ t_quick_drops (Metrics.summary_step Metrics.tally0 Scenario.quick_drop) = 1%nat.
Proof.
  pose proof (C3_abandon_event_iff (H := Scenario.runtime) ∅ Metrics.tally0
                Scenario.abandon_10h Scenario.customer (Scenario.aug18 10 0 0)
                eq_refl eq_refl) as (Hiff & _ & _).
  pose proof (C3_abandon_event_iff (H := Scenario.runtime) ∅ Metrics.tally0
                Scenario.quick_drop Scenario.customer (Scenario.aug18 10 30 0)
                eq_refl eq_refl) as (_ & _ & Hquick).
  split.
  - apply Hiff. split; [reflexivity|vm_compute; lia].
  - destruct Hquick as (Hsame & Hq & _); [reflexivity|vm_compute; lia|].
    split; [exact Hsame|exact Hq].
Defined.



(** ** Recovery matcher *)

Section MatcherFacts.
Context `{Runtime}.
Import Normalizer Matcher Reading.

Lemma recovered_with rc pd pd' :
  abandon_part pd' = abandon_part pd →
  set_recovery_status RECOVERED (set_recovery_call rc pd')
  = set_recovery_status RECOVERED (set_recovery_call rc pd).
Proof.
  destruct pd, pd'. unfold abandon_part, set_recovery_status, set_recovery_call.
  simpl. intros [= -> -> -> -> -> -> ->]. reflexivity.
Qed.

Lemma consider_abandon_part rc pd :
  abandon_part (consider rc pd).1 = abandon_part pd.
Proof.
  unfold consider. destruct (decide _); [reflexivity|].
  destruct (recovery_call pd); reflexivity.
Qed.

Lemma consider_success rc pd :
  rc_disposition rc ∈ successful_dispositions →
  consider rc pd = (set_recovery_status RECOVERED (set_recovery_call rc pd), true).
Proof. intros Hs. unfold consider. now rewrite decide_True. Qed.

Lemma consider_failure rc pd :
  rc_disposition rc ∉ successful_dispositions →
  (consider rc pd).2 = false
  ∧ is_Some (recovery_call (consider rc pd).1)
  ∧ (recovery_call pd = None →
     recovery_call (consider rc pd).1 = Some rc
     ∧ recovery_status (consider rc pd).1 = Some ATTEMPTED)
  ∧ (is_Some (recovery_call pd) → (consider rc pd).1 = pd).
Proof.
  intros Hs. unfold consider. rewrite decide_False by exact Hs.
  destruct (recovery_call pd) as [old|] eqn:Hold; simpl.
  - split; [reflexivity|]. split; [eauto|].
    split; [intros [= ]|intros _; reflexivity].
  - split; [reflexivity|]. split; [eauto|].
    split; [intros _; split; reflexivity|intros [? [= ]]].
Qed.

(** A loop that meets no successful candidate runs to the end of its log. *)
Lemma scan_no_success {R} (candidate : R → option RecoveryCall) pd log :
  Forall (λ record, ¬ is_success (candidate record)) log →
  (scan candidate pd log).2 = false
  ∧ abandon_part (scan candidate pd log).1 = abandon_part pd
  ∧ (recovery_call pd = None → Forall (λ record, candidate record = None) log →
     (scan candidate pd log).1 = pd)
  ∧ (is_Some (recovery_call pd) ∨ Exists (λ record, is_Some (candidate record)) log →
     is_Some (recovery_call (scan candidate pd log).1)).
Proof.
  intros Hall. revert pd.
  induction Hall as [|record log Hrec Hall IH]; intros pd; simpl.
  { split; [reflexivity|]. split; [reflexivity|].
    split; [intros; reflexivity|].
    intros [Hs|Hex]; [exact Hs|inversion Hex]. }
  destruct (candidate record) as [rc|] eqn:Hc.
  - simpl in Hrec. destruct (consider_failure rc pd Hrec) as (Hf & Hsome & Hnew & Hold).
    destruct (consider rc pd) as [pd' found] eqn:Hcons. simpl in *. subst found.
    destruct (IH pd') as (IH1 & IH2 & IH3 & IH4).
    split; [exact IH1|]. split.
    { rewrite IH2. pose proof (consider_abandon_part rc pd) as Hp.
      rewrite Hcons in Hp. exact Hp. }
    split.
    { intros _ Hnone. inversion Hnone; congruence. }
    intros _. apply IH4. left. exact Hsome.
  - destruct (IH pd) as (IH1 & IH2 & IH3 & IH4).
    split; [exact IH1|]. split; [exact IH2|]. split.
    { intros Hn Hnone. inversion Hnone; subst. apply IH3; assumption. }
    intros [Hs|Hex]; apply IH4; [left; exact Hs|].
    inversion Hex as [? ? Hhd|? ? Htl]; subst; [|right; exact Htl].
    rewrite Hc in Hhd. destruct Hhd as [? [= ]].
Qed.

(** A loop breaks at its first successful candidate and records it. *)
Lemma scan_first_success {R} (candidate : R → option RecoveryCall) pd
    (pre : list R) (record : R) (post : list R) rc :
  Forall (λ x, ¬ is_success (candidate x)) pre →
  candidate record = Some rc →
  rc_disposition rc ∈ successful_dispositions →
  scan candidate pd (pre ++ record :: post)
  = (set_recovery_status RECOVERED (set_recovery_call rc pd), true).
Proof.
  intros Hpre Hc Hs.
  assert (Hgo : ∀ pd', abandon_part pd' = abandon_part pd →
    scan candidate pd' (pre ++ record :: post)
    = (set_recovery_status RECOVERED (set_recovery_call rc pd), true));
    [|apply Hgo; reflexivity].
  induction Hpre as [|x pre Hx Hpre IH]; intros pd' Hpart; simpl.
  - rewrite Hc, (consider_success rc pd' Hs). now rewrite (recovered_with rc pd pd').
  - destruct (candidate x) as [rcx|] eqn:Hcx; [|apply IH; exact Hpart].
    simpl in Hx. destruct (consider_failure rcx pd' Hx) as (Hf & _).
    pose proof (consider_abandon_part rcx pd') as Hp.
    destruct (consider rcx pd') as [pd'' found]. simpl in *. subst found.
    apply IH. congruence.
Qed.

Lemma find_recovery_calls_lookup abandon_phone_data acd_data call_data p :
  find_recovery_calls abandon_phone_data acd_data call_data !! p
  = search_phone acd_data call_data p <$> abandon_phone_data !! p.
Proof.
  unfold find_recovery_calls. rewrite map_lookup_imap.
  destruct (abandon_phone_data !! p); reflexivity.
Qed.

Lemma scan_abandon_part {R} (candidate : R → option RecoveryCall) pd log :
  abandon_part (scan candidate pd log).1 = abandon_part pd.
Proof.
  revert pd. induction log as [|record log IH]; intros pd; simpl; [reflexivity|].
  destruct (candidate record) as [rc|]; [|apply IH].
  pose proof (consider_abandon_part rc pd) as Hp.
  destruct (consider rc pd) as [pd' [|]]; simpl in *; [exact Hp|].
  now rewrite IH.
Qed.

Lemma set_recovery_status_abandon_part st pd :
  abandon_part (set_recovery_status st pd) = abandon_part pd.
Proof. reflexivity. Qed.

Lemma search_phone_abandon_part acd_data call_data p pd :
  abandon_part (search_phone acd_data call_data p pd) = abandon_part pd.
Proof.
  unfold search_phone.
  pose proof (scan_abandon_part (inbound_candidate p (first_abandon_time pd))
                pd acd_data) as Hin.
  destruct (scan (inbound_candidate p (first_abandon_time pd)) pd acd_data)
    as [pd1 [|]]; simpl in *; [exact Hin|].
  pose proof (scan_abandon_part (outbound_candidate p (first_abandon_time pd))
                pd1 call_data) as Hout.
  destruct (scan (outbound_candidate p (first_abandon_time pd)) pd1 call_data)
    as [pd2 [|]]; simpl in *; [congruence|].
  rewrite set_recovery_status_abandon_part. congruence.
Qed.

(** Without a successful candidate in either log the last assignment of the
    loop body decides the status, whatever was recorded on the way. *)
Lemma search_phone_no_success acd_data call_data p pd :
  Forall (λ r, ¬ is_success (inbound_candidate p (first_abandon_time pd) r)) acd_data →
  Forall (λ r, ¬ is_success (outbound_candidate p (first_abandon_time pd) r)) call_data →
  recovery_status (search_phone acd_data call_data p pd) = Some NEEDS_OUTBOUND
  ∧ (is_Some (recovery_call pd)
     ∨ Exists (λ r, is_Some (inbound_candidate p (first_abandon_time pd) r)) acd_data
     ∨ Exists (λ r, is_Some (outbound_candidate p (first_abandon_time pd) r)) call_data →
     is_Some (recovery_call (search_phone acd_data call_data p pd))).
Proof.
  intros Hin Hout. unfold search_phone.
  destruct (scan_no_success _ pd acd_data Hin) as (Hf1 & _ & _ & Hsome1).
  destruct (scan (inbound_candidate p (first_abandon_time pd)) pd acd_data)
    as [pd1 found1]. simpl in *. subst found1.
  destruct (scan_no_success _ pd1 call_data Hout) as (Hf2 & _ & _ & Hsome2).
  destruct (scan (outbound_candidate p (first_abandon_time pd)) pd1 call_data)
    as [pd2 found2]. simpl in *. subst found2.
  split; [reflexivity|]. simpl.
  intros [Hs|[Hex|Hex]]; apply Hsome2; auto.
Qed.

Lemma inbound_candidate_Some p t0 record rc :
  inbound_candidate p t0 record = Some rc
  ↔ validate_phone_number (acd_phone record) = Some p
    ∧ acd_answered_hungup record = "ANSWERED"
    ∧ ∃ call_time, validate_timestamp (acd_call_time record) = Some call_time
                   ∧ t0 < call_time
                   ∧ rc = inbound_recovery_data record call_time.
Proof.
  unfold inbound_candidate. split.
  - destruct (decide _) as [[Hp Hf]|]; [|discriminate].
    destruct (validate_timestamp _) as [t|]; [|discriminate].
    destruct (decide (t0 < t)); [|discriminate].
    intros [= <-]. eauto 6.
  - intros (Hp & Hf & t & Ht & Hlt & ->).
    rewrite decide_True by tauto. rewrite Ht. now rewrite decide_True.
Qed.

Lemma outbound_candidate_Some p t0 record rc :
  outbound_candidate p t0 record = Some rc
  ↔ validate_phone_number (out_phone record) = Some p
    ∧ out_call_type record = "outbound.manual.dial"
    ∧ out_system_disposition record = "CONNECTED"
    ∧ ∃ call_time, validate_timestamp (out_call_time record) = Some call_time
                   ∧ t0 < call_time
                   ∧ rc = outbound_recovery_data record call_time.
Proof.
  unfold outbound_candidate. split.
  - destruct (decide _) as [(Hp & Ht & Hd)|]; [|discriminate].
    destruct (validate_timestamp _) as [t|]; [|discriminate].
    destruct (decide (t0 < t)); [|discriminate].
    intros [= <-]. eauto 8.
  - intros (Hp & Hty & Hd & t & Ht & Hlt & ->).
    rewrite decide_True by tauto. rewrite Ht. now rewrite decide_True.
Qed.

End MatcherFacts.

(** C2. The search for a phone reads the inbound log before the outbound log.
    An inbound candidate is a row of the same phone, ANSWERED, with a valid
    call time after the first abandon; an outbound candidate is a row of the
    same phone, a connected manual dial, with a valid call time after the
    first abandon.  If the inbound log has a candidate whose disposition is
    in the success list, the first such row becomes the entry's recovery call
    and the status is RECOVERED, whatever the rest of the inbound log and the
    outbound log hold.  If the inbound log has none, the first such row of
    the outbound log becomes the recovery call and the status is RECOVERED,
    whatever follows it. *)
Theorem C2_first_success_recovers `{Runtime}
    (abandon_phone_data : gmap string PhoneData)
    (acd_data : list AcdRecord) (call_data : list CallRecord)
    (p : string) (pd : PhoneData) :
  abandon_phone_data !! p = Some pd →
  let t0 := first_abandon_time pd in
  let inbound := Matcher.inbound_candidate p t0 in
  let outbound := Matcher.outbound_candidate p t0 in
  let result := Matcher.find_recovery_calls abandon_phone_data acd_data call_data !! p in
  (∀ record rc,
     inbound record = Some rc
     ↔ Normalizer.validate_phone_number (acd_phone record) = Some p
       ∧ acd_answered_hungup record = "ANSWERED"
       ∧ ∃ call_time,
           Normalizer.validate_timestamp (acd_call_time record) = Some call_time
           ∧ t0 < call_time
           ∧ rc = Matcher.inbound_recovery_data record call_time)
  ∧ (∀ record rc,
       outbound record = Some rc
       ↔ Normalizer.validate_phone_number (out_phone record) = Some p
         ∧ out_call_type record = "outbound.manual.dial"
         ∧ out_system_disposition record = "CONNECTED"
         ∧ ∃ call_time,
             Normalizer.validate_timestamp (out_call_time record) = Some call_time
             ∧ t0 < call_time
             ∧ rc = Matcher.outbound_recovery_data record call_time)
  ∧ (∀ pre record post rc,
       acd_data = (pre ++ record :: post)%list →
       Forall (λ x, ¬ Reading.is_success (inbound x)) pre →
       inbound record = Some rc →
       rc_disposition rc ∈ Matcher.successful_dispositions →
       result = Some (set_recovery_status RECOVERED (set_recovery_call rc pd)))
  ∧ (∀ pre record post rc,
       Forall (λ x, ¬ Reading.is_success (inbound x)) acd_data →
       call_data = (pre ++ record :: post)%list →
       Forall (λ x, ¬ Reading.is_success (outbound x)) pre →
       outbound record = Some rc →
       rc_disposition rc ∈ Matcher.successful_dispositions →
       result = Some (set_recovery_status RECOVERED (set_recovery_call rc pd))).
Proof.
  intros Hpd t0 inbound outbound result.
  split; [intros; apply inbound_candidate_Some|].
  split; [intros; apply outbound_candidate_Some|].
  unfold result. rewrite find_recovery_calls_lookup, Hpd. simpl.
  unfold Matcher.search_phone. fold t0. fold inbound. fold outbound.
  split.
  - intros pre record post rc -> Hpre Hc Hs.
    rewrite (scan_first_success inbound pd pre record post rc Hpre Hc Hs).
    reflexivity.
  - intros pre record post rc Hin -> Hpre Hc Hs.
    destruct (scan_no_success inbound pd acd_data Hin) as (Hf & Hpart & _).
    destruct (Matcher.scan inbound pd acd_data) as [pd1 found]. simpl in *.
    subst found.
    rewrite (scan_first_success outbound pd1 pre record post rc Hpre Hc Hs).
    now rewrite (recovered_with rc pd pd1).
Qed.

Lemma C2_first_success_recovers_witness :
  ∃ pd,
    Detector.extract_abandon_phone_numbers (H := Scenario.runtime)
      Scenario.log_recovered !! Scenario.customer = Some pd
    ∧ Matcher.find_recovery_calls (H := Scenario.runtime)
        (Detector.extract_abandon_phone_numbers (H := Scenario.runtime)
           Scenario.log_recovered)
        Scenario.log_recovered [Scenario.dial_PQC] !! Scenario.customer
      = Some (set_recovery_status RECOVERED
                (set_recovery_call
                   (Matcher.inbound_recovery_data Scenario.answered_MI
                      (Scenario.aug18 11 0 0)) pd)).
Proof.
  eexists. split; [vm_compute; reflexivity|].
  eapply (proj1 (proj2 (proj2 (C2_first_success_recovers (H := Scenario.runtime)
            (Detector.extract_abandon_phone_numbers (H := Scenario.runtime)
               Scenario.log_recovered)
            Scenario.log_recovered [Scenario.dial_PQC] Scenario.customer _ _)))
            [Scenario.abandon_10h; Scenario.answered_callback]
            Scenario.answered_MI []).
  - reflexivity.
  - cbv zeta. refine (bool_decide_unpack _ _). vm_compute. exact I.
  - vm_compute. reflexivity.
  - refine (bool_decide_unpack _ _). vm_compute. exact I.
  Unshelve. vm_compute. reflexivity.
Defined.

(** C1, at a log where the claim fails.  The phone abandons at 10:00 and is
    answered at 11:00 with a disposition outside the success list; a dial at
    11:30 does not succeed either.  The search records the 11:00 call as the
    recovery call, and the status it leaves is NEEDS_OUTBOUND, not
    ATTEMPTED. *)
Theorem C1_attempted_status_overwritten :
  ∃ pd, Pipeline.aggregates (H := Scenario.runtime)
          Scenario.log_attempted [Scenario.dial_busy] !! Scenario.customer
        = Some pd
        ∧ recovery_call pd
          = Some (Matcher.inbound_recovery_data
                    Scenario.answered_callback (Scenario.aug18 11 0 0))
        ∧ recovery_status pd = Some NEEDS_OUTBOUND.
Proof.
  eexists. split; [vm_compute; reflexivity|]. split; vm_compute; reflexivity.
Qed.

(** ** Metrics aggregator *)

Section TallyFacts.
Import Normalizer Metrics Reading.

Ltac settle_count P :=
  first
    [ rewrite (decide_True (P := P))
        by (unfold counts_quick_drop, counts_abandon, counts_answered,
              counts_hungup, counts_other in *;
            intuition (eauto; try lia; try congruence))
    | rewrite (decide_False (P := P))
        by (unfold counts_quick_drop, counts_abandon, counts_answered,
              counts_hungup, counts_other in *;
            intuition (eauto; try lia; try congruence)) ].

Lemma has_valid_phone_cases record :
  (∃ p, validate_phone_number (acd_phone record) = Some p ∧ has_valid_phone record)
  ∨ (validate_phone_number (acd_phone record) = None ∧ ¬ has_valid_phone record).
Proof.
  unfold has_valid_phone.
  destruct (validate_phone_number (acd_phone record)) as [p|]; [left; eauto|].
  right. split; [reflexivity|]. intros [? [= ]].
Qed.

Lemma summary_step_counts t record :
  t_valid_calls (summary_step t record)
  = add_record (t_valid_calls t) has_valid_phone record
  ∧ t_valid_answered (summary_step t record)
    = add_record (t_valid_answered t) counts_answered record
  ∧ t_valid_hungup (summary_step t record)
    = add_record (t_valid_hungup t) counts_hungup record
  ∧ t_quick_drops (summary_step t record)
    = add_record (t_quick_drops t) counts_quick_drop record
  ∧ t_total_abandon_calls (summary_step t record)
    = add_record (t_total_abandon_calls t) counts_abandon record.
Proof.
  unfold summary_step, add_record.
  destruct (has_valid_phone_cases record) as [(p & Hp & Hv)|(Hp & Hv)]; rewrite Hp.
  - destruct (decide (acd_answered_hungup record = "ANSWERED")) as [Ha|Ha];
      [|destruct (decide (acd_answered_hungup record = "HUNGUP")) as [Hh|Hh];
        [destruct (decide (time_to_seconds (acd_wait_time record) ≤ 27)%nat)|]];
      simpl;
      settle_count (has_valid_phone record);
      settle_count (counts_answered record);
      settle_count (counts_hungup record);
      settle_count (counts_quick_drop record);
      settle_count (counts_abandon record);
      repeat split; reflexivity.
  - settle_count (has_valid_phone record);
    settle_count (counts_answered record);
    settle_count (counts_hungup record);
    settle_count (counts_quick_drop record);
    settle_count (counts_abandon record);
    repeat split; reflexivity.
Qed.

(** The five counters after the loop are the sizes of the five classes. *)
Lemma tally_counts acd_data :
  let t := tally acd_data in
  t_valid_calls t = length (filter has_valid_phone acd_data)
  ∧ t_valid_answered t = length (filter counts_answered acd_data)
  ∧ t_valid_hungup t = length (filter counts_hungup acd_data)
  ∧ t_quick_drops t = length (filter counts_quick_drop acd_data)
  ∧ t_total_abandon_calls t = length (filter counts_abandon acd_data).
Proof.
  unfold tally. induction acd_data as [|record acd_data IH] using rev_ind.
  { simpl. repeat split; reflexivity. }
  rewrite foldl_snoc. simpl in IH. destruct IH as (I1 & I2 & I3 & I4 & I5).
  destruct (summary_step_counts (foldl summary_step tally0 acd_data) record)
    as (S1 & S2 & S3 & S4 & S5).
  cbv zeta. rewrite S1, S2, S3, S4, S5, I1, I2, I3, I4, I5.
  rewrite !filter_app, !length_app, !filter_cons, !filter_nil.
  unfold add_record.
  repeat split; destruct (decide _); simpl; lia.
Qed.

(** Every record with a valid phone is in exactly one of three classes. *)
Lemma flag_classes acd_data :
  (length (filter counts_answered acd_data) + length (filter counts_hungup acd_data)
   + length (filter counts_other acd_data))%nat
  = length (filter has_valid_phone acd_data).
Proof.
  induction acd_data as [|record acd_data IH]; [reflexivity|].
  rewrite !filter_cons.
  destruct (has_valid_phone_cases record) as [(p & _ & Hv)|(_ & Hv)];
    [destruct (decide (acd_answered_hungup record = "ANSWERED")) as [Ha|Ha];
     [|destruct (decide (acd_answered_hungup record = "HUNGUP")) as [Hh|Hh]]|];
    settle_count (has_valid_phone record);
    settle_count (counts_answered record);
    settle_count (counts_hungup record);
    settle_count (counts_other record);
    simpl; lia.
Qed.

(** Every HUNGUP record with a valid phone is a quick drop or an abandon. *)
Lemma hungup_classes acd_data :
  (length (filter counts_quick_drop acd_data)
   + length (filter counts_abandon acd_data))%nat
  = length (filter counts_hungup acd_data).
Proof.
  induction acd_data as [|record acd_data IH]; [reflexivity|].
  rewrite !filter_cons.
  destruct (decide (counts_hungup record)) as [Hh|Hh];
    [destruct (decide (time_to_seconds (acd_wait_time record) ≤ 27)%nat)|];
    settle_count (counts_quick_drop record);
    settle_count (counts_abandon record);
    simpl; lia.
Qed.

End TallyFacts.




(** C6, at a record where the claim fails: an ANSWERED call three years
    before the run has a timestamp the validation rejects, and the summary
    still counts it as a valid and answered call. *)
Lemma C6_stale_record_counterexample :
  Normalizer.parse_timestamp (H := Scenario.runtime) (acd_call_time Scenario.stale)
  = Some (Scenario.aug18 11 0 0 - Scenario.days 1095)
  ∧ Scenario.aug18 11 0 0 - Scenario.days 1095
    < now (Runtime := Scenario.runtime) - 730 * ns_per_day
  ∧ Normalizer.validate_timestamp (H := Scenario.runtime)
      (acd_call_time Scenario.stale) = None
  ∧ total_valid_calls (Pipeline.summary (H := Scenario.runtime) [Scenario.stale] [])
    ≠ total_valid_calls (Pipeline.summary (H := Scenario.runtime) [] [])
  ∧ total_answered_calls (Pipeline.summary (H := Scenario.runtime) [Scenario.stale] [])
    ≠ total_answered_calls (Pipeline.summary (H := Scenario.runtime) [] []).
Proof.
  split; [reflexivity|]. split; [vm_compute; reflexivity|].
  split; [vm_compute; reflexivity|]. split; vm_compute; discriminate.
Qed.

(** C6, amended.  A record whose timestamp parses to a moment before
    now - 730 days or after now + 365 days is rejected by the timestamp
    validation: the abandon detector leaves every entry as it was, the
    record is no recovery candidate for any phone, and it is no row of the
    daily breakdown.  The summary loop does not read the timestamp: it counts
    the record as it would with any other call time, and as a valid call
    when its phone normalizes. *)
Theorem C6_out_of_window `{Runtime} (abandon_phone_data : gmap string PhoneData)
    (t : Tally) (record : AcdRecord) (parsed_date : Z) :
  Normalizer.parse_timestamp (acd_call_time record) = Some parsed_date →
  parsed_date < now - 730 * ns_per_day ∨ now + 365 * ns_per_day < parsed_date →
  Normalizer.validate_timestamp (acd_call_time record) = None
  ∧ Detector.extract_step abandon_phone_data record = abandon_phone_data
  ∧ (∀ p, Reading.abandon_event_for p record = None)
  ∧ (∀ p t0, Matcher.inbound_candidate p t0 record = None)
  ∧ Metrics.valid_row record = None
  ∧ (∀ c, Metrics.summary_step t record
          = Metrics.summary_step t (Reading.with_call_time c record))
  ∧ (Reading.has_valid_phone record →
     t_valid_calls (Metrics.summary_step t record) = (t_valid_calls t + 1)%nat).
Proof.
  intros Hparse Hout.
  assert (Hts : Normalizer.validate_timestamp (acd_call_time record) = None).
  { unfold Normalizer.validate_timestamp, Normalizer.in_window. rewrite Hparse.
    now rewrite decide_True. }
  split; [exact Hts|]. split.
  { unfold Detector.extract_step. rewrite Hts.
    destruct (Normalizer.validate_phone_number _); reflexivity. }
  split.
  { intros p. unfold Reading.abandon_event_for. rewrite Hts.
    destruct (Normalizer.validate_phone_number _); reflexivity. }
  split.
  { intros p t0. unfold Matcher.inbound_candidate. rewrite Hts.
    destruct (decide _); reflexivity. }
  split.
  { unfold Metrics.valid_row. rewrite Hts.
    destruct (Normalizer.validate_phone_number _); reflexivity. }
  split; [intros c; reflexivity|].
  intros Hv. destruct (summary_step_counts t record) as (Hc & _).
  rewrite Hc. unfold Reading.add_record. now rewrite decide_True.
Qed.

Lemma C6_out_of_window_witness :
  Detector.extract_step (H := Scenario.runtime) ∅ Scenario.stale = ∅
  ∧ t_valid_calls (Metrics.summary_step Metrics.tally0 Scenario.stale) = 1%nat.
Proof.
  pose proof (C6_out_of_window (H := Scenario.runtime) ∅ Metrics.tally0
                Scenario.stale (Scenario.aug18 11 0 0 - Scenario.days 1095)
                eq_refl) as Hstale.
  destruct Hstale as (_ & Hsame & _ & _ & _ & _ & Hcount).
  - left. vm_compute. reflexivity.
  - split; [exact Hsame|]. apply Hcount. vm_compute. eauto.
Defined.

(** ** The abandonment rate *)

Section RecordedCalls.
Import Normalizer Detector Matcher Metrics Reading.

Lemma total_recorded_empty : total_recorded ∅ = 0%nat.
Proof. unfold total_recorded. now rewrite map_to_list_empty. Qed.

Lemma total_recorded_insert_fresh (d : gmap string PhoneData) p pd :
  d !! p = None →
  total_recorded (<[p:=pd]> d) = (total_abandon_calls pd + total_recorded d)%nat.
Proof.
  intros Hp. unfold total_recorded. now rewrite (map_to_list_insert d p pd Hp).
Qed.

(** Replacing an entry replaces its count in the total. *)
Lemma total_recorded_insert (d : gmap string PhoneData) p pd :
  (total_recorded (<[p:=pd]> d) + from_option total_abandon_calls 0 (d !! p))%nat
  = (total_abandon_calls pd + total_recorded d)%nat.
Proof.
  destruct (d !! p) as [old|] eqn:Hp; simpl.
  - rewrite <- (insert_delete_eq d p pd).
    rewrite <- (insert_delete_id d p old Hp) at 2.
    rewrite !total_recorded_insert_fresh by apply lookup_delete_eq. lia.
  - rewrite total_recorded_insert_fresh by exact Hp. lia.
Qed.

Lemma recovered_abandon_calls_le (d : gmap string PhoneData) :
  (recovered_abandon_calls d ≤ total_recorded d)%nat.
Proof.
  unfold recovered_abandon_calls, total_recorded. rewrite map_fold_foldr.
  induction (map_to_list d) as [|[p pd] l IH]; simpl; [lia|].
  destruct (decide (is_recovered pd)); lia.
Qed.

Context `{Runtime}.

Lemma find_recovery_calls_insert (d : gmap string PhoneData) acd_data call_data p pd :
  find_recovery_calls (<[p:=pd]> d) acd_data call_data
  = <[p := search_phone acd_data call_data p pd]>
      (find_recovery_calls d acd_data call_data).
Proof. unfold find_recovery_calls. now apply map_imap_insert_Some. Qed.

Lemma search_phone_total acd_data call_data p pd :
  total_abandon_calls (search_phone acd_data call_data p pd) = total_abandon_calls pd.
Proof.
  change (total_abandon_calls (abandon_part (search_phone acd_data call_data p pd))
          = total_abandon_calls (abandon_part pd)).
  now rewrite search_phone_abandon_part.
Qed.

(** The recovery search changes no abandon count. *)
Lemma total_recorded_find_recovery_calls (d : gmap string PhoneData) acd_data call_data :
  total_recorded (find_recovery_calls d acd_data call_data) = total_recorded d.
Proof.
  induction d as [|p pd d Hp IH] using map_ind.
  { unfold find_recovery_calls. now rewrite map_imap_empty. }
  rewrite find_recovery_calls_insert.
  rewrite !total_recorded_insert_fresh;
    [|exact Hp|now rewrite find_recovery_calls_lookup, Hp].
  now rewrite search_phone_total, IH.
Qed.

(** An iteration of the detector counts at most the record it read, and
    only an abandon call with a valid phone. *)
Lemma total_recorded_extract_step (d : gmap string PhoneData) record :
  (total_recorded (extract_step d record)
   ≤ add_record (total_recorded d) counts_abandon record)%nat.
Proof.
  unfold extract_step, add_record.
  destruct (has_valid_phone_cases record) as [(p & Hp & Hv)|(Hp & Hv)]; rewrite Hp;
    [|destruct (decide _); lia].
  destruct (validate_timestamp (acd_call_time record)) as [t|];
    [|destruct (decide _); lia].
  destruct (decide (is_abandon record)) as [[Hf Hw]|Hn]; [|destruct (decide _); lia].
  rewrite decide_True by (repeat split; assumption).
  pose proof (total_recorded_insert d p (track_abandon (d !! p) p record t)) as Hins.
  rewrite track_abandon_total in Hins. lia.
Qed.

Lemma total_recorded_extract acd_data :
  (total_recorded (extract_abandon_phone_numbers acd_data)
   ≤ length (filter counts_abandon acd_data))%nat.
Proof.
  unfold extract_abandon_phone_numbers.
  induction acd_data as [|record acd_data IH] using rev_ind.
  { simpl. rewrite total_recorded_empty. lia. }
  rewrite foldl_snoc, filter_app, length_app.
  pose proof (total_recorded_extract_step (foldl extract_step ∅ acd_data) record) as Hs.
  rewrite filter_cons, filter_nil. unfold add_record in Hs.
  destruct (decide (counts_abandon record)); simpl; lia.
Qed.

End RecordedCalls.

Section RateFacts.
Import Normalizer Metrics Reading.

Lemma rate_step_counts acc record :
  rate_step acc record
  = (add_record acc.1 has_valid_phone record, add_record acc.2 counts_abandon record).
Proof.
  unfold rate_step, add_record.
  destruct (has_valid_phone_cases record) as [(p & Hp & Hv)|(Hp & Hv)]; rewrite Hp.
  - rewrite (decide_True (P := has_valid_phone record)) by exact Hv.
    destruct (decide (Detector.is_abandon record)) as [[Hf Hw]|Hn].
    + rewrite decide_True by (repeat split; assumption). reflexivity.
    + rewrite decide_False; [reflexivity|].
      intros [[_ Hf] Hw]. apply Hn. split; assumption.
  - rewrite (decide_False (P := has_valid_phone record)) by exact Hv.
    rewrite decide_False; [now destruct acc|]. intros [[Hv' _] _]. tauto.
Qed.

Lemma rate_loop_counts acd_data :
  foldl rate_step (0%nat, 0%nat) acd_data
  = (length (filter has_valid_phone acd_data),
     length (filter counts_abandon acd_data)).
Proof.
  induction acd_data as [|record acd_data IH] using rev_ind; [reflexivity|].
  rewrite foldl_snoc, IH, rate_step_counts. simpl.
  rewrite !filter_app, !length_app, !filter_cons, !filter_nil.
  unfold add_record. f_equal; destruct (decide _); simpl; lia.
Qed.

Lemma abandon_le_valid acd_data :
  (length (filter counts_abandon acd_data)
   ≤ length (filter has_valid_phone acd_data))%nat.
Proof.
  induction acd_data as [|record acd_data IH]; [simpl; lia|].
  rewrite !filter_cons.
  destruct (decide (counts_abandon record)) as [[[Hv _] _]|Hn].
  - rewrite decide_True by exact Hv. simpl. lia.
  - destruct (decide (has_valid_phone record)); simpl; lia.
Qed.

Lemma round_half_even_bounds (x : Q) (lo hi : Z) :
  (inject_Z lo <= x)%Q → (x <= inject_Z hi)%Q →
  lo ≤ round_half_even x ≤ hi.
Proof.
  intros Hlo Hhi. unfold round_half_even.
  assert (Hf1 : lo ≤ Qfloor x).
  { rewrite <- (Qfloor_Z lo). now apply Qfloor_resp_le. }
  assert (Hf2 : Qfloor x ≤ hi).
  { rewrite <- (Qfloor_Z hi). now apply Qfloor_resp_le. }
  assert (Hup : (inject_Z (Qfloor x) < x)%Q → Qfloor x + 1 ≤ hi).
  { intros Hlt. assert (Hlt' : (inject_Z (Qfloor x) < inject_Z hi)%Q)
      by (eapply Qlt_le_trans; eassumption).
    rewrite <- Zlt_Qlt in Hlt'. lia. }
  destruct (x - inject_Z (Qfloor x) ?= 1 # 2)%Q eqn:Hcmp.
  - apply Qeq_alt in Hcmp. destruct (Z.even (Qfloor x)); [lia|].
    split; [lia|]. apply Hup. revert Hcmp.
    generalize (inject_Z (Qfloor x)). intros q Hcmp. lra.
  - lia.
  - apply Qgt_alt in Hcmp. split; [lia|]. apply Hup. revert Hcmp.
    generalize (inject_Z (Qfloor x)). intros q Hcmp. lra.
Qed.

Lemma percent_of_bounds (a b n : nat) :
  (b ≤ a)%nat → (a ≤ n)%nat → (0 < n)%nat →
  (0 <= percent_of a b n * 10)%Q ∧ (percent_of a b n * 10 <= inject_Z 1000)%Q.
Proof.
  intros Hba Han Hn. unfold percent_of.
  set (d := Z.of_nat a - Z.of_nat b).
  assert (Hd : 0 ≤ d ≤ Z.of_nat n) by (unfold d; lia).
  destruct (Z.of_nat n) as [|k|k] eqn:Hk; try lia.
  unfold Qle, Qdiv, Qmult, Qinv, inject_Z. simpl. nia.
Qed.

Lemma round1_bounds (x : Q) :
  (0 <= x * 10)%Q → (x * 10 <= inject_Z 1000)%Q →
  (0 <= round1 x)%Q ∧ (round1 x <= 100)%Q.
Proof.
  intros Hlo Hhi. unfold round1.
  destruct (round_half_even_bounds (x * 10) 0 1000 Hlo Hhi) as [H0 H1].
  revert H0 H1. generalize (round_half_even (x * 10)). intros r H0 H1.
  unfold Qle, Qdiv, Qmult, Qinv, inject_Z. simpl. lia.
Qed.

End RateFacts.



(** ** Daily breakdown *)

Section DailyFacts.
Import Normalizer Detector Matcher Metrics Reading.





Lemma daily_row_date d bd day : row_business_date (daily_row d bd day) = bd.
Proof. reflexivity. Qed.

Context `{Runtime}.

Lemma group_keys_elem valid bd :
  bd ∈ group_keys valid ↔ ∃ v, v ∈ valid ∧ vr_business_date v = bd.
Proof.
  unfold group_keys. rewrite merge_sort_Permutation, elem_of_remove_dups.
  rewrite list_elem_of_fmap. split; intros (v & ? & ?); exists v; auto.
Qed.

Lemma group_keys_NoDup valid : NoDup (group_keys valid).
Proof.
  unfold group_keys. rewrite merge_sort_Permutation. apply NoDup_remove_dups.
Qed.

(** The report has one row for each business date of the valid data. *)
Lemma report_rows acd_data (d : gmap string PhoneData) :
  create_daily_breakdown_report acd_data d
  ≡ₚ (λ bd, daily_row d bd (filter (on_date bd) (valid_data acd_data)))
       <$> group_keys (valid_data acd_data).
Proof.
  unfold create_daily_breakdown_report.
  destruct (valid_data acd_data) as [|v valid] eqn:Hv; [reflexivity|].
  apply merge_sort_Permutation.
Qed.

Lemma report_dates acd_data (d : gmap string PhoneData) :
  row_business_date <$> create_daily_breakdown_report acd_data d
  ≡ₚ group_keys (valid_data acd_data).
Proof.
  rewrite report_rows, <- list_fmap_compose.
  generalize (group_keys (valid_data acd_data)). intros keys.
  induction keys as [|bd keys IH]; [reflexivity|].
  rewrite fmap_cons. simpl. now rewrite IH.
Qed.


End DailyFacts.



(** The breakdown of the two-day log: the phone counts on 2025-08-17, the
    day of its first abandon, and not on 2025-08-18. *)
Example daily_two_dates :
  (λ row, (row_business_date row, row_abandon_calls row,
           row_unique_abandon_phones row, row_phones_needing_calls row))
    <$> Pipeline.daily (H := Scenario.runtime) Scenario.log_two_days []
  = [(20317, 1%nat, 1%nat, 1%nat); (20318, 1%nat, 0%nat, 0%nat)].
Proof. vm_compute. reflexivity. Qed.

(** The scenarios of the sample run: one abandon call at 10:00 gives one
    abandon event on business date 2025-08-18 and, with no later contact, the
    status NEEDS_OUTBOUND; an answered call at 11:00 with disposition MI makes
    the phone RECOVERED. *)
Example scenario_needs_outbound :
  (λ pd, (length (abandon_calls pd), first_abandon_business_date pd,
          recovery_status pd))
    <$> Pipeline.aggregates (H := Scenario.runtime) [Scenario.abandon_10h] []
          !! Scenario.customer
  = Some (1%nat, 20318, Some NEEDS_OUTBOUND).
Proof. vm_compute. reflexivity. Qed.

Example scenario_recovered :
  recovery_status
    <$> Pipeline.aggregates (H := Scenario.runtime) Scenario.log_clean []
          !! Scenario.customer
  = Some (Some RECOVERED)
  ∧ unique_phones_recovered
      (Pipeline.summary (H := Scenario.runtime) Scenario.log_clean []) = 1%nat
  ∧ unique_phones_needing
      (Pipeline.summary (H := Scenario.runtime) Scenario.log_clean []) = 0%nat.
Proof. vm_compute. repeat split; reflexivity. Qed.

(** * Further properties of the engine *)

(** ** Normalized phones *)

Section PhoneFacts.

Lemma length_drop_string (n : nat) (s : string) :
  String.length (PyStr.drop n s) = (String.length s - n)%nat.
Proof.
  revert s. induction n as [|n IH]; intros [|c s]; simpl; try lia. apply IH.
Qed.

Lemma all_digits_drop (n : nat) (s : string) :
  PyStr.all_digits s = true → PyStr.all_digits (PyStr.drop n s) = true.
Proof.
  revert s. induction n as [|n IH]; intros [|c s]; simpl; auto.
  intros [_ Hs]%andb_true_iff. now apply IH.
Qed.

Lemma filter_digits_all_digits (s : string) :
  PyStr.all_digits s = true → PyStr.filter_digits s = s.
Proof.
  induction s as [|c s IH]; simpl; [reflexivity|].
  intros [Hc Hs]%andb_true_iff. rewrite Hc. now rewrite IH.
Qed.

Lemma validate_phone_number_digits (raw : string) :
  Normalizer.validate_phone_number raw
  = if decide (10 ≤ String.length (PyStr.filter_digits raw) ≤ 15)%nat
    then Some (PyStr.last_chars 10 (PyStr.filter_digits raw)) else None.
Proof.
  unfold Normalizer.validate_phone_number.
  destruct (decide (raw = "")) as [->|_]; [reflexivity|].
  destruct (decide (_ < 10)%nat); [now rewrite decide_False by lia|].
  destruct (decide (15 < _)%nat); [now rewrite decide_False by lia|].
  now rewrite decide_True by lia.
Qed.

End PhoneFacts.

Lemma normal_form_shape (raw p : string) :
  Normalizer.validate_phone_number raw = Some p →
  String.length p = 10%nat ∧ PyStr.all_digits p = true.
Proof.
  rewrite validate_phone_number_digits.
  destruct (decide _) as [Hlen|]; [|discriminate]. intros [= <-]. split.
  - unfold PyStr.last_chars. rewrite length_drop_string. lia.
  - apply all_digits_drop, all_digits_filter_digits.
Qed.

(** X1. A normalized phone is a string of exactly ten digits, and it is its
    own normal form: normalizing it again returns it. *)
Theorem normalized_phone_normal_form (raw p : string) :
  Normalizer.validate_phone_number raw = Some p →
  String.length p = 10%nat
  ∧ PyStr.all_digits p = true
  ∧ Normalizer.validate_phone_number p = Some p.
Proof.
  rewrite validate_phone_number_digits.
  destruct (decide _) as [Hlen|]; [|discriminate]. intros [= <-].
  assert (Hl : String.length (PyStr.last_chars 10 (PyStr.filter_digits raw)) = 10%nat).
  { unfold PyStr.last_chars. rewrite length_drop_string. lia. }
  assert (Hd : PyStr.all_digits (PyStr.last_chars 10 (PyStr.filter_digits raw)) = true).
  { apply all_digits_drop, all_digits_filter_digits. }
  split; [exact Hl|]. split; [exact Hd|].
  rewrite validate_phone_number_digits, (filter_digits_all_digits _ Hd), Hl.
  rewrite decide_True by lia. unfold PyStr.last_chars at 1. now rewrite Hl.
Qed.

Lemma normalized_phone_normal_form_witness :
  String.length "5551234567" = 10%nat
  ∧ PyStr.all_digits "5551234567" = true
  ∧ Normalizer.validate_phone_number "5551234567" = Some "5551234567".
Proof.
  apply (normalized_phone_normal_form "+1 (555) 123-4567" "5551234567").
  vm_compute. reflexivity.
Defined.

(** The normal form depends on the digits of the raw string only: two
    raw strings with the same digit characters in the same order normalize
    alike, whatever else they hold. *)
Theorem normalized_phone_by_digits (raw1 raw2 : string) :
  PyStr.filter_digits raw1 = PyStr.filter_digits raw2 →
  Normalizer.validate_phone_number raw1 = Normalizer.validate_phone_number raw2.
Proof. intros Heq. rewrite !validate_phone_number_digits. now rewrite Heq. Qed.

Lemma normalized_phone_by_digits_witness :
  Normalizer.validate_phone_number "+1 (555) 123-4567"
  = Normalizer.validate_phone_number "1.555.123.4567 ext".
Proof. apply normalized_phone_by_digits. vm_compute. reflexivity. Defined.

(** ** Timestamps and business dates *)

(** X2. The business date of a timestamp is the day whose 06:00 opens the
    24-hour cycle the timestamp falls in: it is [d] exactly for the
    timestamps from 06:00 of day [d] up to, not including, 06:00 of day
    [d + 1]. *)
Theorem business_date_cycle (t d : Z) :
  Normalizer.convert_to_business_date t = d
  ↔ d * ns_per_day + 6 * ns_per_hour ≤ t < (d + 1) * ns_per_day + 6 * ns_per_hour.
Proof.
  unfold Normalizer.convert_to_business_date, Normalizer.hour, Normalizer.date,
    ns_per_day, ns_per_hour.
  destruct (decide _) as [Hh|Hh]; revert Hh;
    Z.div_mod_to_equations; lia.
Qed.

(** Timestamp validation accepts a cell exactly when it parses to a
    moment from now - 730 days to now + 365 days, both ends included, and
    returns that moment unchanged. *)
Theorem validate_timestamp_window `{Runtime} (c : cell) (t : Z) :
  Normalizer.validate_timestamp c = Some t
  ↔ Normalizer.parse_timestamp c = Some t
    ∧ now - 730 * ns_per_day ≤ t ≤ now + 365 * ns_per_day.
Proof.
  unfold Normalizer.validate_timestamp, Normalizer.in_window.
  destruct (Normalizer.parse_timestamp c) as [parsed|]; [|split; [discriminate|intros [[= ] _]]].
  destruct (decide _) as [Hout|Hin].
  - split; [discriminate|]. intros [[= ->] ?]. lia.
  - split; [intros [= ->]; split; [reflexivity|lia]|]. now intros [[= ->] _].
Qed.

(** ** Durations *)

Section DurationFacts.

Lemma digit_not_space (c : ascii) :
  PyStr.isdigit_char c = true → PyStr.isspace_char c = false.
Proof.
  unfold PyStr.isdigit_char, PyStr.isspace_char.
  intros [H1 H2]%andb_true_iff.
  apply Nat.leb_le in H1. apply Nat.leb_le in H2.
  apply orb_false_iff. split; apply andb_false_iff.
  - right. apply Nat.leb_gt. lia.
  - right. apply Nat.leb_gt. lia.
Qed.

Lemma digit_not_colon (c : ascii) : PyStr.isdigit_char c = true → c ≠ ":"%char.
Proof. intros Hc ->. vm_compute in Hc. discriminate. Qed.

Lemma split_digits (p : string) :
  PyStr.all_digits p = true → PyStr.split ":" p = [p].
Proof.
  induction p as [|c p IH]; simpl; [reflexivity|].
  intros [Hc Hp]%andb_true_iff.
  rewrite decide_False by now apply digit_not_colon. now rewrite IH.
Qed.

Lemma split_digits_colon (p rest : string) :
  PyStr.all_digits p = true →
  PyStr.split ":" (p ++ String ":" rest) = p :: PyStr.split ":" rest.
Proof.
  induction p as [|c p IH]; simpl.
  - intros _. reflexivity.
  - intros [Hc Hp]%andb_true_iff.
    rewrite decide_False by now apply digit_not_colon. now rewrite IH.
Qed.

Lemma rstrip_cons (c : ascii) (s : string) :
  PyStr.rstrip (String c s)
  = match PyStr.rstrip s with
    | "" => if PyStr.isspace_char c then "" else String c ""
    | r => String c r
    end.
Proof. reflexivity. Qed.

Lemma rstrip_all_digits (p : string) :
  PyStr.all_digits p = true → PyStr.rstrip p = p.
Proof.
  induction p as [|c p IH]; [reflexivity|].
  intros [Hc Hp]%andb_true_iff. rewrite rstrip_cons, (IH Hp).
  destruct p; [now rewrite (digit_not_space c Hc)|reflexivity].
Qed.

Lemma rstrip_app_digits (a p : string) :
  PyStr.isdigit p = true → PyStr.rstrip (a ++ p) = a ++ p.
Proof.
  intros Hp. destruct p as [|d p]; [discriminate|].
  induction a as [|c a IH]; [now apply rstrip_all_digits|].
  change (String c a ++ String d p) with (String c (a ++ String d p)).
  rewrite rstrip_cons, IH. destruct a; reflexivity.
Qed.

Lemma string_app_assoc (a b c : string) : (a ++ b) ++ c = a ++ (b ++ c).
Proof.
  induction a as [|x a IH]; [reflexivity|].
  change (String x ((a ++ b) ++ c) = String x (a ++ (b ++ c))). now rewrite IH.
Qed.

Lemma strip_hms (p0 p1 p2 : string) :
  PyStr.isdigit p0 = true → PyStr.isdigit p2 = true →
  PyStr.strip (Survey.hms p0 p1 p2) = Survey.hms p0 p1 p2.
Proof.
  intros H0 H2. unfold PyStr.strip, Survey.hms.
  assert (Hl : PyStr.lstrip (p0 ++ ":" ++ p1 ++ ":" ++ p2)
               = p0 ++ ":" ++ p1 ++ ":" ++ p2).
  { destruct p0 as [|c p0]; [discriminate|]. simpl in *.
    apply andb_true_iff in H0 as [Hc _]. now rewrite (digit_not_space c Hc). }
  rewrite Hl.
  rewrite <- (string_app_assoc p1 ":" p2), <- (string_app_assoc ":" (p1 ++ ":") p2).
  rewrite <- (string_app_assoc p0 (":" ++ p1 ++ ":") p2).
  now apply rstrip_app_digits.
Qed.

Lemma isdigit_all_digits (p : string) :
  PyStr.isdigit p = true → PyStr.all_digits p = true.
Proof. destruct p; [discriminate|auto]. Qed.

End DurationFacts.

(** X3. A duration written as three non-empty digit fields joined by colons
    converts by place value: hours*3600 + minutes*60 + seconds, however many
    digits a field has, when the hours are at most 24 and the minutes and
    seconds at most 59, and 0 otherwise.  So "24:59:59" is accepted. *)
Theorem time_to_seconds_fields (p0 p1 p2 : string) :
  PyStr.isdigit p0 = true → PyStr.isdigit p1 = true → PyStr.isdigit p2 = true →
  Normalizer.time_to_seconds (Survey.hms p0 p1 p2)
  = if decide (PyStr.int p0 ≤ 24 ∧ PyStr.int p1 ≤ 59 ∧ PyStr.int p2 ≤ 59)%nat
    then (PyStr.int p0 * 3600 + PyStr.int p1 * 60 + PyStr.int p2)%nat
    else 0%nat.
Proof.
  intros H0 H1 H2.
  assert (Hsplit : PyStr.split ":" (PyStr.strip (Survey.hms p0 p1 p2)) = [p0; p1; p2]).
  { rewrite strip_hms by assumption. unfold Survey.hms.
    change (p0 ++ ":" ++ p1 ++ ":" ++ p2)
      with (p0 ++ String ":" (p1 ++ String ":" p2)).
    rewrite !split_digits_colon, split_digits by now apply isdigit_all_digits.
    reflexivity. }
  assert (Hgen : Normalizer.time_to_seconds (Survey.hms p0 p1 p2)
    = if decide (24 < Normalizer.field_value p0 ∨ 59 < Normalizer.field_value p1
                 ∨ 59 < Normalizer.field_value p2)%nat then 0%nat
      else (Normalizer.field_value p0 * 3600 + Normalizer.field_value p1 * 60
            + Normalizer.field_value p2)%nat).
  { unfold Normalizer.time_to_seconds.
    destruct (decide (_ ∨ _)) as [[Hz|He]|_].
    - rewrite Hz in Hsplit. vm_compute in Hsplit.
      injection Hsplit as <- <- <-. reflexivity.
    - rewrite He in Hsplit. vm_compute in Hsplit. discriminate.
    - now rewrite Hsplit. }
  rewrite Hgen. clear Hgen. unfold Normalizer.field_value. rewrite H0, H1, H2.
  destruct (decide (_ ∨ _)); [now rewrite decide_False by lia|].
  now rewrite decide_True by lia.
Qed.

Lemma time_to_seconds_fields_witness :
  Normalizer.time_to_seconds "24:59:59" = (24 * 3600 + 59 * 60 + 59)%nat
  ∧ Normalizer.time_to_seconds "0:7:005" = 425%nat
  ∧ Normalizer.time_to_seconds "25:00:00" = 0%nat.
Proof.
  pose proof (time_to_seconds_fields "24" "59" "59" eq_refl eq_refl eq_refl) as Ha.
  pose proof (time_to_seconds_fields "0" "7" "005" eq_refl eq_refl eq_refl) as Hb.
  pose proof (time_to_seconds_fields "25" "00" "00" eq_refl eq_refl eq_refl) as Hc.
  split; [|split].
  - exact Ha.
  - exact Hb.
  - exact Hc.
Defined.

(** ** Column labels and column access *)

Section ColumnFacts.
Import Columns.

Lemma lstrip_shape (s : string) :
  PyStr.lstrip s = ""
  ∨ ∃ c r, PyStr.lstrip s = String c r ∧ PyStr.isspace_char c = false.
Proof.
  induction s as [|c s IH]; simpl; [now left|].
  destruct (PyStr.isspace_char c) eqn:Hc; [exact IH|]. right. eauto.
Qed.

Lemma rstrip_rstrip (s : string) : PyStr.rstrip (PyStr.rstrip s) = PyStr.rstrip s.
Proof.
  induction s as [|c s IH]; [reflexivity|]. rewrite rstrip_cons.
  destruct (PyStr.rstrip s) as [|d r] eqn:Hr.
  - destruct (PyStr.isspace_char c) eqn:Hc; [reflexivity|].
    rewrite rstrip_cons. simpl. now rewrite Hc.
  - rewrite rstrip_cons. now rewrite IH.
Qed.

Lemma rstrip_head (c : ascii) (r : string) :
  PyStr.isspace_char c = false → ∃ r', PyStr.rstrip (String c r) = String c r'.
Proof.
  intros Hc. rewrite rstrip_cons. destruct (PyStr.rstrip r); [rewrite Hc|]; eauto.
Qed.

Lemma strip_strip (s : string) : PyStr.strip (PyStr.strip s) = PyStr.strip s.
Proof.
  unfold PyStr.strip. destruct (lstrip_shape s) as [->|(c & r & -> & Hc)].
  { reflexivity. }
  destruct (rstrip_head c r Hc) as [r' Hr]. rewrite Hr.
  simpl PyStr.lstrip. rewrite Hc. rewrite <- Hr. apply rstrip_rstrip.
Qed.

Lemma prefix_refl (s : string) : String.prefix s s = true.
Proof.
  induction s as [|c s IH]; [reflexivity|]. simpl.
  destruct (ascii_dec c c); [exact IH|contradiction].
Qed.

Lemma fuzzy_refl (name : string) : fuzzy name name = true.
Proof.
  unfold fuzzy. generalize (lower name). intros s.
  destruct s as [|c s]; [reflexivity|].
  change (PyStr.contains (String c s) (String c s))
    with (String.prefix (String c s) (String c s) || PyStr.contains (String c s) s).
  now rewrite prefix_refl.
Qed.

Lemma first_column_Some {V} (test : string → bool)
    (record : list (option string * option V)) value :
  first_column test record = Some value →
  ∃ col, (Some col, value) ∈ record ∧ test col = true.
Proof.
  induction record as [|[[col|] v] record IH]; simpl; [discriminate| |].
  - destruct (test col) eqn:Ht.
    + intros [= <-]. exists col. split; [left|exact Ht].
    + intros Hf. destruct (IH Hf) as (col' & Hin & Ht').
      exists col'. split; [now right|exact Ht'].
  - intros Hf. destruct (IH Hf) as (col' & Hin & Ht').
    exists col'. split; [now right|exact Ht'].
Qed.

Lemma first_column_None {V} (test : string → bool)
    (record : list (option string * option V)) :
  first_column test record = None
  ↔ ∀ col value, (Some col, value) ∈ record → test col = false.
Proof.
  induction record as [|[[col|] v] record IH]; simpl.
  - split; [intros _ col value Hin; inversion Hin|reflexivity].
  - destruct (test col) eqn:Ht.
    + split; [discriminate|]. intros Hall.
      rewrite (Hall col v) in Ht by left. discriminate.
    + rewrite IH. split.
      * intros Hall col' value [[= -> ->]|Hin]%elem_of_cons; eauto.
      * intros Hall col' value Hin. apply (Hall col' value). now right.
  - rewrite IH. split.
    + intros Hall col' value [[= ]|Hin]%elem_of_cons. eauto.
    + intros Hall col' value Hin. apply (Hall col' value). now right.
Qed.

Lemma distinct_labels_cell {V} (record : list (option string * option V))
    label v1 v2 :
  NoDup record.*1 → (label, v1) ∈ record → (label, v2) ∈ record → v1 = v2.
Proof.
  induction record as [|[l v] record IH]; simpl; [intros _ Hin; inversion Hin|].
  intros [Hl Hnd]%NoDup_cons [[= -> ->]|H1]%elem_of_cons [[= ?]|H2]%elem_of_cons.
  - congruence.
  - exfalso. apply Hl. apply list_elem_of_fmap. now exists (l, v2).
  - subst. exfalso. apply Hl. apply list_elem_of_fmap. now exists (l, v1).
  - now apply IH.
Qed.

End ColumnFacts.

(** X4. [safe_get_column] on a row with distinct labels.  A column whose
    label is the requested name decides: its cell is returned when it is not
    NaN, whatever other labels contain the name.  The default is returned
    when no label contains the name case-insensitively.  In every case the
    result is the default or a non-NaN cell of a column whose label contains
    the name case-insensitively. *)
Theorem safe_get_column_sound {V} (record : list (option string * option V))
    (column_name : string) (default : V) :
  NoDup record.*1 →
  (∀ v, (Some column_name, Some v) ∈ record →
        Columns.safe_get_column record column_name default = v)
  ∧ ((∀ col cell, (Some col, cell) ∈ record → Columns.fuzzy column_name col = false) →
     Columns.safe_get_column record column_name default = default)
  ∧ (Columns.safe_get_column record column_name default = default
     ∨ ∃ col, (Some col, Some (Columns.safe_get_column record column_name default))
              ∈ record
              ∧ Columns.fuzzy column_name col = true).
Proof.
  intros Hnd. unfold Columns.safe_get_column. split; [|split].
  - intros v Hin.
    destruct (Columns.first_column (String.eqb column_name) record) as [value|] eqn:Hf.
    + apply first_column_Some in Hf as (col & Hcol & ->%String.eqb_eq).
      now rewrite (distinct_labels_cell record _ _ _ Hnd Hcol Hin).
    + rewrite first_column_None in Hf. specialize (Hf _ _ Hin).
      rewrite String.eqb_refl in Hf. discriminate.
  - intros Hall.
    destruct (Columns.first_column (String.eqb column_name) record) as [value|] eqn:Hf.
    + apply first_column_Some in Hf as (col & Hcol & ->%String.eqb_eq).
      pose proof (Hall _ _ Hcol) as Hno. rewrite fuzzy_refl in Hno. discriminate.
    + apply first_column_None in Hall. now rewrite Hall.
  - destruct (Columns.first_column (String.eqb column_name) record) as [value|] eqn:Hf.
    + apply first_column_Some in Hf as (col & Hcol & ->%String.eqb_eq).
      destruct value as [v|]; [|now left]. right. exists col.
      split; [exact Hcol|apply fuzzy_refl].
    + destruct (Columns.first_column (Columns.fuzzy column_name) record)
        as [value|] eqn:Hg; [|now left].
      apply first_column_Some in Hg as (col & Hcol & Hfz).
      destruct value as [v|]; [|now left]. right. exists col. split; assumption.
Qed.

Lemma safe_get_column_sound_witness :
  Columns.safe_get_column
    [(Some "System Disposition", Some "CONNECTED");
     (Some "Disposition Code", Some "PQC")] "Disposition Code" "" = "PQC"
  ∧ Columns.safe_get_column
      [(Some "Phone", Some "5551234567")] "Queue Name" "none" = "none".
Proof.
  split.
  - apply (safe_get_column_sound
             [(Some "System Disposition", Some "CONNECTED");
              (Some "Disposition Code", Some "PQC")] "Disposition Code" "").
    + refine (bool_decide_unpack _ _). vm_compute. exact I.
    + right. left.
  - apply (safe_get_column_sound [(Some "Phone", Some "5551234567")]
             "Queue Name" "none").
    + refine (bool_decide_unpack _ _). vm_compute. exact I.
    + intros col cell [[= -> ->]|Hin]%elem_of_cons; [reflexivity|inversion Hin].
Defined.

(** X5. Cleaning the labels of a frame that has rows and columns leaves
    every label a string without leading or trailing whitespace, and
    cleaning again changes nothing; the analyzer cleans the same frames at
    the start of every stage. *)
Theorem clean_dataframe_columns_idempotent (columns : list (option string))
    (n_rows : nat) :
  Columns.clean_dataframe_columns (Columns.clean_dataframe_columns columns n_rows) n_rows
  = Columns.clean_dataframe_columns columns n_rows
  ∧ (n_rows ≠ 0%nat →
     Forall (λ label, ∃ text, label = Some text ∧ PyStr.strip text = text)
            (Columns.clean_dataframe_columns columns n_rows)).
Proof.
  unfold Columns.clean_dataframe_columns. split.
  - destruct (decide (n_rows = 0%nat ∨ columns = [])) as [Hempty|Hfull].
    + now rewrite decide_True.
    + rewrite decide_False.
      * rewrite <- list_fmap_compose. apply list_fmap_ext. intros _ [text|] _; simpl.
        -- now rewrite strip_strip.
        -- reflexivity.
      * intros [Hn|Hc]; [tauto|]. apply fmap_nil_inv in Hc. tauto.
  - intros Hn. destruct (decide _) as [[Hz| ->]|_]; [contradiction|constructor|].
    apply Forall_fmap, Forall_true. intros [text|]; simpl.
    + exists (PyStr.strip text). split; [reflexivity|apply strip_strip].
    + exists "". split; reflexivity.
Qed.

Lemma clean_dataframe_columns_idempotent_witness :
  Forall (λ label, ∃ text, label = Some text ∧ PyStr.strip text = text)
         (Columns.clean_dataframe_columns [Some " Phone "; None; Some "Call Time "] 3).
Proof.
  apply (clean_dataframe_columns_idempotent [Some " Phone "; None; Some "Call Time "] 3).
  lia.
Defined.

(** ** The dictionary of the abandon detector *)

Section DetectorSurvey.
Context `{Runtime}.
Import Normalizer Detector Reading Survey.

Lemma abandon_event_for_Some q record c :
  abandon_event_for q record = Some c →
  validate_phone_number (acd_phone record) = Some q
  ∧ is_abandon record
  ∧ ∃ t, validate_timestamp (acd_call_time record) = Some t
         ∧ c = abandon_call_of record t.
Proof.
  unfold abandon_event_for.
  destruct (validate_phone_number (acd_phone record)) as [p|]; [|discriminate].
  destruct (validate_timestamp (acd_call_time record)) as [t|]; [|discriminate].
  destruct (decide _) as [[-> Ha]|]; [|discriminate].
  intros [= <-]. eauto.
Qed.

Lemma tracked_cases record :
  (∃ p t, validate_phone_number (acd_phone record) = Some p
          ∧ validate_timestamp (acd_call_time record) = Some t
          ∧ is_abandon record ∧ tracked record)
  ∨ ((∀ d, extract_step d record = d) ∧ ¬ tracked record).
Proof.
  unfold tracked, extract_step.
  destruct (validate_phone_number (acd_phone record)) as [p|];
    [|right; split; [reflexivity|intros [[? [= ]] _]]].
  destruct (validate_timestamp (acd_call_time record)) as [t|];
    [|right; split; [reflexivity|intros (_ & [? [= ]] & _)]].
  destruct (decide (is_abandon record)) as [Ha|Hn].
  - left. exists p, t. eauto 10.
  - right. split; [reflexivity|tauto].
Qed.

Lemma total_recorded_extract_step_exact (d : gmap string PhoneData) record :
  total_recorded (extract_step d record)
  = (total_recorded d + length (filter tracked [record]))%nat.
Proof.
  rewrite filter_cons, filter_nil.
  destruct (tracked_cases record) as [(p & t & Hp & Ht & Ha & Htr)|(Hsame & Hn)].
  - rewrite decide_True by exact Htr. unfold extract_step. rewrite Hp, Ht.
    rewrite decide_True by exact Ha.
    pose proof (total_recorded_insert d p (track_abandon (d !! p) p record t)) as Hins.
    rewrite track_abandon_total in Hins. simpl. lia.
  - rewrite decide_False by exact Hn. rewrite Hsame. simpl. lia.
Qed.

Lemma total_recorded_extract_exact acd_data :
  total_recorded (extract_abandon_phone_numbers acd_data)
  = length (filter tracked acd_data).
Proof.
  unfold extract_abandon_phone_numbers.
  induction acd_data as [|record acd_data IH] using rev_ind.
  { simpl. apply total_recorded_empty. }
  rewrite foldl_snoc, filter_app, length_app, total_recorded_extract_step_exact.
  now rewrite IH.
Qed.

Lemma size_le_total_recorded (d : gmap string PhoneData) :
  (∀ p pd, d !! p = Some pd → (1 ≤ total_abandon_calls pd)%nat) →
  (size d ≤ total_recorded d)%nat.
Proof.
  intros Hall. unfold total_recorded. rewrite <- length_map_to_list.
  assert (Hl : ∀ kv, kv ∈ map_to_list d → (1 ≤ total_abandon_calls kv.2)%nat).
  { intros [p pd] Hin. apply elem_of_map_to_list in Hin. eauto. }
  induction (map_to_list d) as [|kv l IH]; simpl; [lia|].
  pose proof (Hl kv (list_elem_of_here _ _)).
  assert (length l ≤ sum_list_with (λ kv, total_abandon_calls kv.2) l)%nat.
  { apply IH. intros kv' Hin. apply Hl. now right. }
  lia.
Qed.

Lemma extract_entry_total acd_data p pd :
  extract_abandon_phone_numbers acd_data !! p = Some pd →
  (1 ≤ total_abandon_calls pd)%nat.
Proof.
  intros Hpd. pose proof (extract_tracks acd_data p) as Ht. rewrite Hpd in Ht.
  destruct Ht as (_ & Hne & Htot & _). rewrite Htot.
  destruct (abandon_events p acd_data); [contradiction|simpl; lia].
Qed.

End DetectorSurvey.

(** X6. Every entry of the detector's dictionary is filed under its own
    normalized phone, a string of ten digits.  It holds at least one abandon
    call and counts exactly the calls it holds; each call waited more than 27
    seconds and carries the business date of its call time; no recovery key
    is set. *)
Theorem extract_entry_invariant `{Runtime} (acd_data : list AcdRecord)
    (p : string) (pd : PhoneData) :
  Detector.extract_abandon_phone_numbers acd_data !! p = Some pd →
  phone pd = p
  ∧ String.length p = 10%nat ∧ PyStr.all_digits p = true
  ∧ total_abandon_calls pd = length (abandon_calls pd)
  ∧ (1 ≤ total_abandon_calls pd)%nat
  ∧ Forall (λ c, (27 < wait_time_seconds c)%nat
                 ∧ business_date c
                   = Normalizer.convert_to_business_date (call_time c))
           (abandon_calls pd)
  ∧ recovery_call pd = None ∧ recovery_status pd = None.
Proof.
  intros Hpd. pose proof (extract_entry_total acd_data p pd Hpd) as Hone.
  pose proof (extract_tracks acd_data p) as Ht. rewrite Hpd in Ht.
  destruct Ht as (Hcalls & Hne & Htot & _ & _ & _ & Hphone & Hrc & Hst).
  assert (Hev : ∀ c, c ∈ Reading.abandon_events p acd_data →
    (String.length p = 10%nat ∧ PyStr.all_digits p = true)
    ∧ (27 < wait_time_seconds c)%nat
    ∧ business_date c = Normalizer.convert_to_business_date (call_time c)).
  { intros c Hc. apply list_elem_of_omap in Hc as (record & Hr & Hc).
    apply abandon_event_for_Some in Hc as (Hp0 & [_ Hw] & t & _ & ->).
    split; [exact (normal_form_shape _ _ Hp0)|]. split; [exact Hw|reflexivity]. }
  split; [exact Hphone|].
  assert (Hshape : String.length p = 10%nat ∧ PyStr.all_digits p = true).
  { destruct (Reading.abandon_events p acd_data) as [|c l] eqn:He; [contradiction|].
    apply (Hev c). left. }
  destruct Hshape as [Hlen Hdig].
  split; [exact Hlen|]. split; [exact Hdig|].
  split; [now rewrite Htot, Hcalls|]. split; [exact Hone|].
  split; [|split; assumption].
  rewrite Hcalls. apply Forall_forall. intros c Hc.
  destruct (Hev c Hc) as (_ & Hw & Hb). split; assumption.
Qed.

Lemma extract_entry_invariant_witness :
  ∃ pd,
    Detector.extract_abandon_phone_numbers (H := Scenario.runtime)
      Scenario.log_two_days !! Scenario.customer = Some pd
    ∧ total_abandon_calls pd = length (abandon_calls pd)
    ∧ total_abandon_calls pd = 2%nat.
Proof.
  eexists. split; [vm_compute; reflexivity|]. split; [|vm_compute; reflexivity].
  apply (extract_entry_invariant (H := Scenario.runtime)
           Scenario.log_two_days Scenario.customer).
  vm_compute. reflexivity.
Defined.

Section DetectorOrder.
Context `{Runtime}.
Import Normalizer Detector Reading.

Lemma extract_is_Some acd_data p :
  is_Some (extract_abandon_phone_numbers acd_data !! p)
  ↔ abandon_events p acd_data ≠ [].
Proof.
  pose proof (extract_tracks acd_data p) as Ht.
  destruct (extract_abandon_phone_numbers acd_data !! p) as [pd|].
  - destruct Ht as (_ & Hne & _). split; [intros _; exact Hne|eauto].
  - split; [intros [? [= ]]|]. intros Hne. contradiction.
Qed.

Lemma abandon_events_Permutation p acd_data acd_data' :
  acd_data' ≡ₚ acd_data → abandon_events p acd_data' ≡ₚ abandon_events p acd_data.
Proof. intros Hperm. unfold abandon_events. now rewrite Hperm. Qed.

End DetectorOrder.

(** X7. The order of the inbound log does not change which phones the
    detector files, which abandon calls each entry holds (they are listed in
    log order), or how many it counts. *)
Theorem extract_order_independent `{Runtime} (acd_data acd_data' : list AcdRecord) :
  acd_data' ≡ₚ acd_data →
  dom (Detector.extract_abandon_phone_numbers acd_data')
  = dom (Detector.extract_abandon_phone_numbers acd_data)
  ∧ ∀ p pd pd',
      Detector.extract_abandon_phone_numbers acd_data !! p = Some pd →
      Detector.extract_abandon_phone_numbers acd_data' !! p = Some pd' →
      abandon_calls pd' ≡ₚ abandon_calls pd
      ∧ total_abandon_calls pd' = total_abandon_calls pd.
Proof.
  intros Hperm. split.
  - apply set_eq. intros p. rewrite !elem_of_dom, !extract_is_Some.
    pose proof (abandon_events_Permutation p _ _ Hperm) as Hev.
    split; intros Hne Hnil; apply Hne.
    + rewrite Hnil in Hev. now apply Permutation_nil_r in Hev.
    + rewrite Hnil in Hev. now apply Permutation_nil_l in Hev.
  - intros p pd pd' Hpd Hpd'.
    pose proof (extract_tracks acd_data p) as Ht. rewrite Hpd in Ht.
    pose proof (extract_tracks acd_data' p) as Ht'. rewrite Hpd' in Ht'.
    destruct Ht as (Hc & _ & Htot & _). destruct Ht' as (Hc' & _ & Htot' & _).
    pose proof (abandon_events_Permutation p _ _ Hperm) as Hev.
    split; [now rewrite Hc, Hc'|].
    rewrite Htot, Htot'. now apply Permutation_length.
Qed.

Lemma extract_order_independent_witness :
  dom (Detector.extract_abandon_phone_numbers (H := Scenario.runtime)
         [Scenario.abandon_9h; Scenario.abandon_10h])
  = dom (Detector.extract_abandon_phone_numbers (H := Scenario.runtime)
           Scenario.log_out_of_order).
Proof.
  apply (extract_order_independent (H := Scenario.runtime)
           Scenario.log_out_of_order [Scenario.abandon_9h; Scenario.abandon_10h]).
  apply Permutation_swap.
Defined.

(** X8. The abandon counts of the detector's dictionary add up to the
    number of records it tracks: those with a valid phone, a valid timestamp,
    HUNGUP, and a wait of more than 27 seconds.  The dictionary has at most
    that many phones. *)
Theorem extract_counts_tracked `{Runtime} (acd_data : list AcdRecord) :
  Reading.total_recorded (Detector.extract_abandon_phone_numbers acd_data)
  = length (filter Survey.tracked acd_data)
  ∧ (size (Detector.extract_abandon_phone_numbers acd_data)
     ≤ length (filter Survey.tracked acd_data))%nat.
Proof.
  rewrite <- total_recorded_extract_exact. split; [reflexivity|].
  apply size_le_total_recorded. intros p pd. apply extract_entry_total.
Qed.

(** ** The recovery search as a decision over candidates *)

Section SearchSurvey.
Context `{Runtime}.
Import Normalizer Matcher Reading Survey.

Lemma attempted_abandon_part pd cands :
  abandon_part (attempted pd cands) = abandon_part pd.
Proof.
  unfold attempted. destruct (recovery_call pd), (head cands); reflexivity.
Qed.

Lemma attempted_app pd c1 c2 :
  attempted (attempted pd c1) c2 = attempted pd (c1 ++ c2).
Proof.
  unfold attempted. destruct (recovery_call pd) as [old|] eqn:Hold.
  - now rewrite Hold.
  - destruct c1 as [|rc c1]; simpl; [now rewrite Hold|reflexivity].
Qed.

Lemma first_success_app c1 c2 :
  first_success (c1 ++ c2)
  = match first_success c1 with
    | Some rc => Some rc
    | None => first_success c2
    end.
Proof.
  unfold first_success. rewrite filter_app.
  destruct (filter _ c1); reflexivity.
Qed.

Lemma first_success_Some cands rc :
  first_success cands = Some rc →
  rc ∈ cands ∧ rc_disposition rc ∈ successful_dispositions.
Proof.
  unfold first_success. intros Hh.
  assert (Hin : rc ∈ filter (λ rc, rc_disposition rc ∈ successful_dispositions) cands).
  { destruct (filter _ cands) as [|x l]; [discriminate|].
    injection Hh as ->. left. }
  apply list_elem_of_filter in Hin. tauto.
Qed.

Lemma first_success_None cands rc :
  first_success cands = None → rc ∈ cands →
  rc_disposition rc ∉ successful_dispositions.
Proof.
  unfold first_success. intros Hh Hin Hs.
  assert (Hf : rc ∈ filter (λ rc, rc_disposition rc ∈ successful_dispositions) cands)
    by (apply list_elem_of_filter; split; assumption).
  destruct (filter _ cands); [inversion Hf|discriminate].
Qed.

Lemma first_success_cons rc cands :
  first_success (rc :: cands)
  = if decide (rc_disposition rc ∈ successful_dispositions)
    then Some rc else first_success cands.
Proof.
  unfold first_success. rewrite filter_cons. now destruct (decide _).
Qed.

Lemma candidates_cons {R} (candidate : R → option RecoveryCall) record log :
  candidates candidate (record :: log)
  = match candidate record with
    | Some rc => rc :: candidates candidate log
    | None => candidates candidate log
    end.
Proof. reflexivity. Qed.

(** A loop of the search, read off its candidates. *)
Lemma scan_decided {R} (candidate : R → option RecoveryCall) pd log :
  scan candidate pd log
  = match first_success (candidates candidate log) with
    | Some rc => (set_recovery_status RECOVERED (set_recovery_call rc pd), true)
    | None => (attempted pd (candidates candidate log), false)
    end.
Proof.
  revert pd.
  induction log as [|record log IH]; intros pd.
  { simpl. unfold attempted. now destruct (recovery_call pd). }
  rewrite candidates_cons. simpl scan.
  destruct (candidate record) as [rc|] eqn:Hc; [|apply IH].
  rewrite first_success_cons.
  destruct (decide (rc_disposition rc ∈ successful_dispositions)) as [Hs|Hs].
  - now rewrite (consider_success rc pd Hs).
  - destruct (consider_failure rc pd Hs) as (Hfound & _ & Hnew & Hold).
    pose proof (consider_abandon_part rc pd) as Hpart.
    destruct (consider rc pd) as [pd' found] eqn:Hcons.
    cbn [fst snd] in Hfound, Hnew, Hold, Hpart. subst found.
    rewrite IH. destruct (first_success (candidates candidate log)) as [rc'|].
    + now rewrite (recovered_with rc' pd pd' Hpart).
    + f_equal. unfold attempted at 2. cbn [head].
      destruct (recovery_call pd) as [old|] eqn:Hrc.
      * rewrite Hold by eauto. unfold attempted. now rewrite Hrc.
      * unfold consider in Hcons. rewrite decide_False in Hcons by exact Hs.
        rewrite Hrc in Hcons. injection Hcons as <-. reflexivity.
Qed.

(** The search for one phone, read off its candidates. *)
Lemma search_phone_decided acd_data call_data p pd :
  search_phone acd_data call_data p pd
  = decided pd (all_candidates acd_data call_data p pd).
Proof.
  unfold search_phone, decided, all_candidates.
  rewrite first_success_app, !scan_decided.
  destruct (first_success (candidates (inbound_candidate p _) acd_data)) as [rc|];
    [reflexivity|].
  rewrite scan_decided.
  destruct (first_success (candidates (outbound_candidate p _) call_data)) as [rc|].
  - apply recovered_with, attempted_abandon_part.
  - now rewrite attempted_app.
Qed.

Lemma decided_abandon_part pd cands : abandon_part (decided pd cands) = abandon_part pd.
Proof.
  unfold decided. destruct (first_success cands); [reflexivity|].
  apply attempted_abandon_part.
Qed.

Lemma decided_twice pd cands : decided (decided pd cands) cands = decided pd cands.
Proof.
  unfold decided. destruct (first_success cands) as [rc|].
  { now destruct pd. }
  unfold attempted. simpl.
  destruct (recovery_call pd) as [old|] eqn:Hold.
  - rewrite Hold. now destruct pd.
  - destruct (head cands) as [rc|]; simpl; [reflexivity|].
    rewrite Hold. now destruct pd.
Qed.

Lemma all_candidates_abandon_part acd_data call_data p pd pd' :
  abandon_part pd' = abandon_part pd →
  all_candidates acd_data call_data p pd' = all_candidates acd_data call_data p pd.
Proof.
  intros Hpart. unfold all_candidates.
  change (first_abandon_time pd') with (first_abandon_time (abandon_part pd')).
  now rewrite Hpart.
Qed.

Lemma candidate_after acd_data call_data p pd rc :
  rc ∈ all_candidates acd_data call_data p pd → first_abandon_time pd < rc_time rc.
Proof.
  unfold all_candidates, candidates. rewrite elem_of_app, !list_elem_of_omap.
  intros [(record & _ & Hc)|(record & _ & Hc)].
  - apply inbound_candidate_Some in Hc as (_ & _ & t & _ & Hlt & ->). exact Hlt.
  - apply outbound_candidate_Some in Hc as (_ & _ & _ & t & _ & Hlt & ->). exact Hlt.
Qed.

End SearchSurvey.

(** X9. The recovery search decides each entry from the candidates of its
    phone, the inbound ones in log order followed by the outbound ones.  The
    first candidate with a successful disposition becomes the recovery call
    with status RECOVERED.  With no such candidate the status is
    NEEDS_OUTBOUND, and the first candidate of all is recorded as the
    recovery call unless the entry had one already. *)
Theorem find_recovery_calls_decided `{Runtime}
    (abandon_phone_data : gmap string PhoneData)
    (acd_data : list AcdRecord) (call_data : list CallRecord) (p : string) :
  Matcher.find_recovery_calls abandon_phone_data acd_data call_data !! p
  = (λ pd, Survey.decided pd (Survey.all_candidates acd_data call_data p pd))
      <$> abandon_phone_data !! p.
Proof.
  rewrite find_recovery_calls_lookup.
  destruct (abandon_phone_data !! p) as [pd|]; [|reflexivity].
  simpl. now rewrite search_phone_decided.
Qed.

(** X10. Searching again over the same logs changes nothing: the recovery
    search is idempotent. *)
Theorem find_recovery_calls_idempotent `{Runtime}
    (abandon_phone_data : gmap string PhoneData)
    (acd_data : list AcdRecord) (call_data : list CallRecord) :
  Matcher.find_recovery_calls
    (Matcher.find_recovery_calls abandon_phone_data acd_data call_data)
    acd_data call_data
  = Matcher.find_recovery_calls abandon_phone_data acd_data call_data.
Proof.
  apply map_eq. intros p. rewrite !find_recovery_calls_lookup.
  destruct (abandon_phone_data !! p) as [pd|]; [|reflexivity]. simpl. f_equal.
  rewrite !search_phone_decided.
  rewrite (all_candidates_abandon_part acd_data call_data p pd
             (Survey.decided pd (Survey.all_candidates acd_data call_data p pd)))
    by apply decided_abandon_part.
  apply decided_twice.
Qed.

(** X11. The recovery search keeps the phones of the dictionary and the
    abandon data of every entry, and leaves every entry with status RECOVERED
    or NEEDS_OUTBOUND: no entry is left ATTEMPTED or without a status. *)
Theorem find_recovery_calls_statuses `{Runtime}
    (abandon_phone_data : gmap string PhoneData)
    (acd_data : list AcdRecord) (call_data : list CallRecord) :
  dom (Matcher.find_recovery_calls abandon_phone_data acd_data call_data)
  = dom abandon_phone_data
  ∧ ∀ p pd',
      Matcher.find_recovery_calls abandon_phone_data acd_data call_data !! p
      = Some pd' →
      (recovery_status pd' = Some RECOVERED
       ∨ recovery_status pd' = Some NEEDS_OUTBOUND)
      ∧ ∃ pd, abandon_phone_data !! p = Some pd
              ∧ Reading.abandon_part pd' = Reading.abandon_part pd.
Proof.
  split.
  - apply set_eq. intros p. rewrite !elem_of_dom, find_recovery_calls_lookup.
    apply fmap_is_Some.
  - intros p pd'. rewrite find_recovery_calls_lookup.
    destruct (abandon_phone_data !! p) as [pd|]; [|discriminate].
    simpl. intros [= <-]. rewrite search_phone_decided. split.
    + unfold Survey.decided. destruct (Survey.first_success _); [now left|now right].
    + exists pd. split; [reflexivity|apply decided_abandon_part].
Qed.

Lemma find_recovery_calls_statuses_witness :
  dom (Pipeline.aggregates (H := Scenario.runtime)
         Scenario.log_attempted [Scenario.dial_busy])
  = dom (Detector.extract_abandon_phone_numbers (H := Scenario.runtime)
           Scenario.log_attempted).
Proof.
  apply (find_recovery_calls_statuses (H := Scenario.runtime)).
Defined.

(** X12. In a run, an entry with a recovery call is RECOVERED exactly when
    the disposition of that call is in the success list, and the call is
    later than the entry's first abandon; an entry without a recovery call
    has status NEEDS_OUTBOUND. *)
Theorem run_recovery_call_consistent `{Runtime}
    (acd_data : list AcdRecord) (call_data : list CallRecord)
    (p : string) (pd : PhoneData) :
  Pipeline.aggregates acd_data call_data !! p = Some pd →
  match recovery_call pd with
  | Some rc =>
      (recovery_status pd = Some RECOVERED
       ↔ rc_disposition rc ∈ Matcher.successful_dispositions)
      ∧ first_abandon_time pd < rc_time rc
  | None => recovery_status pd = Some NEEDS_OUTBOUND
  end.
Proof.
  unfold Pipeline.aggregates. rewrite find_recovery_calls_lookup.
  pose proof (extract_tracks acd_data p) as Ht.
  destruct (Detector.extract_abandon_phone_numbers acd_data !! p) as [pd0|];
    [|discriminate].
  destruct Ht as (_ & _ & _ & _ & _ & _ & _ & Hrc & _).
  simpl. intros [= <-]. rewrite search_phone_decided.
  pose proof (candidate_after acd_data call_data p pd0) as Hafter.
  unfold Survey.decided.
  destruct (Survey.first_success _) as [rc|] eqn:Hfs.
  - apply first_success_Some in Hfs as [Hin Hs]. simpl.
    split; [tauto|]. now apply Hafter.
  - unfold Survey.attempted. rewrite Hrc.
    destruct (head _) as [rc|] eqn:Hh; simpl; [|now rewrite Hrc].
    assert (Hin : rc ∈ Survey.all_candidates acd_data call_data p pd0).
    { destruct (Survey.all_candidates acd_data call_data p pd0); [discriminate|].
      injection Hh as ->. left. }
    split; [|now apply Hafter].
    split; [discriminate|]. intros Hs.
    now apply (first_success_None _ rc Hfs) in Hin.
Qed.

Lemma run_recovery_call_consistent_witness :
  ∃ pd rc,
    Pipeline.aggregates (H := Scenario.runtime)
      Scenario.log_attempted [Scenario.dial_busy] !! Scenario.customer = Some pd
    ∧ recovery_call pd = Some rc
    ∧ (recovery_status pd = Some RECOVERED
       ↔ rc_disposition rc ∈ Matcher.successful_dispositions)
    ∧ first_abandon_time pd < rc_time rc.
Proof.
  eexists _, _. split; [vm_compute; reflexivity|]. split; [vm_compute; reflexivity|].
  exact (run_recovery_call_consistent (H := Scenario.runtime)
           Scenario.log_attempted [Scenario.dial_busy] Scenario.customer _ eq_refl).
Defined.

(** ** The summary and its self-checks *)

Section SummarySurvey.
Import Normalizer Metrics Reading.

Lemma recovered_phones_le_size (d : gmap string PhoneData) :
  (recovered_phones d ≤ size d)%nat.
Proof.
  unfold recovered_phones. etransitivity; [apply length_filter|].
  now rewrite length_fmap, length_map_to_list.
Qed.

Context `{Runtime}.

Lemma size_find_recovery_calls (d : gmap string PhoneData) acd_data call_data :
  size (Matcher.find_recovery_calls d acd_data call_data) = size d.
Proof.
  induction d as [|p pd d Hp IH] using map_ind.
  { unfold Matcher.find_recovery_calls. now rewrite map_imap_empty. }
  rewrite find_recovery_calls_insert.
  rewrite !map_size_insert_None;
    [|exact Hp|now rewrite find_recovery_calls_lookup, Hp].
  now rewrite IH.
Qed.

(** The rate of a run is within range. *)
Lemma run_rate_range acd_data call_data :
  (0 <= abandonment_rate (Pipeline.summary acd_data call_data))%Q
  ∧ (abandonment_rate (Pipeline.summary acd_data call_data) <= 100)%Q.
Proof.
  unfold Pipeline.summary, generate_summary_metrics. simpl.
  unfold calculate_corrected_abandonment_rate. rewrite rate_loop_counts.
  destruct (decide (0 < _)%nat) as [Hpos|_]; [|split; discriminate].
  apply round1_bounds; apply percent_of_bounds; try assumption.
  - unfold Pipeline.aggregates.
    etransitivity; [apply recovered_abandon_calls_le|].
    rewrite total_recorded_find_recovery_calls. apply total_recorded_extract.
  - apply abandon_le_valid.
  - unfold Pipeline.aggregates.
    etransitivity; [apply recovered_abandon_calls_le|].
    rewrite total_recorded_find_recovery_calls. apply total_recorded_extract.
  - apply abandon_le_valid.
Qed.

End SummarySurvey.

(** X13. For any log and any dictionary the summary splits the hung-up calls
    into quick drops and abandon calls, and the phones into recovered ones
    and ones needing a call; the second and third check of the validator
    pass. *)
Theorem summary_identities (acd_data : list AcdRecord)
    (abandon_phone_data : gmap string PhoneData) :
  let m := Metrics.generate_summary_metrics acd_data abandon_phone_data in
  (quick_drops m + abandon_calls_gt27 m)%nat = total_hungup_calls m
  ∧ (unique_phones_recovered m + unique_phones_needing m)%nat
    = unique_abandon_phones m
  ∧ Metrics.validate_final_metrics m !! 1%nat = Some true
  ∧ Metrics.validate_final_metrics m !! 2%nat = Some true.
Proof.
  intros m. destruct (tally_counts acd_data) as (_ & _ & Hh & Hq & Ha).
  pose proof (hungup_classes acd_data) as Hsum.
  pose proof (recovered_phones_le_size abandon_phone_data) as Hle.
  assert (H1 : (quick_drops m + abandon_calls_gt27 m)%nat = total_hungup_calls m).
  { unfold m, Metrics.generate_summary_metrics. simpl. rewrite Hh, Hq, Ha. exact Hsum. }
  assert (H2 : (unique_phones_recovered m + unique_phones_needing m)%nat
               = unique_abandon_phones m).
  { unfold m, Metrics.generate_summary_metrics. simpl. lia. }
  split; [exact H1|]. split; [exact H2|].
  unfold Metrics.validate_final_metrics. simpl. split; f_equal.
  - now apply bool_decide_eq_true.
  - now apply bool_decide_eq_true.
Qed.

(** X14. In a run the validator reports: the first check passes exactly when
    no record with a valid phone has a flag other than ANSWERED or HUNGUP,
    and the other three checks pass. *)
Theorem run_validation_results `{Runtime}
    (acd_data : list AcdRecord) (call_data : list CallRecord) :
  Metrics.validate_final_metrics (Pipeline.summary acd_data call_data)
  = [bool_decide (filter Reading.counts_other acd_data = []); true; true; true].
Proof.
  pose proof (run_rate_range acd_data call_data) as [Hlo Hhi].
  destruct (tally_counts acd_data) as (Hv & Ha & Hh & Hq & Hab).
  pose proof (flag_classes acd_data) as Hflags.
  pose proof (hungup_classes acd_data) as Hsum.
  pose proof (recovered_phones_le_size (Pipeline.aggregates acd_data call_data)) as Hle.
  unfold Metrics.validate_final_metrics.
  f_equal; [|f_equal; [|f_equal; [|f_equal]]].
  - unfold Pipeline.summary, Metrics.generate_summary_metrics. simpl.
    rewrite Hv, Ha, Hh. apply bool_decide_ext.
    destruct (filter Reading.counts_other acd_data); simpl in *; split;
      intros; try lia; try discriminate; reflexivity.
  - apply bool_decide_eq_true.
    unfold Pipeline.summary, Metrics.generate_summary_metrics. simpl.
    rewrite Hh, Hq, Hab. exact Hsum.
  - apply bool_decide_eq_true.
    unfold Pipeline.summary, Metrics.generate_summary_metrics. simpl.
    fold (Pipeline.aggregates acd_data call_data). lia.
  - apply negb_true_iff, bool_decide_eq_false. intros [Hneg|Hbig].
    + exact (Qlt_not_le _ _ Hneg Hlo).
    + exact (Qlt_not_le _ _ Hbig Hhi).
Qed.

(** X15. In a run there are never more abandoning phones than abandon calls
    in the summary, and never more recovered phones than abandoning
    phones. *)
Theorem run_phones_le_calls `{Runtime}
    (acd_data : list AcdRecord) (call_data : list CallRecord) :
  (unique_abandon_phones (Pipeline.summary acd_data call_data)
   ≤ abandon_calls_gt27 (Pipeline.summary acd_data call_data))%nat
  ∧ (unique_phones_recovered (Pipeline.summary acd_data call_data)
     ≤ unique_abandon_phones (Pipeline.summary acd_data call_data))%nat.
Proof.
  destruct (tally_counts acd_data) as (_ & _ & _ & _ & Hab).
  unfold Pipeline.summary, Metrics.generate_summary_metrics. simpl.
  split; [|apply recovered_phones_le_size].
  rewrite Hab. unfold Pipeline.aggregates. rewrite size_find_recovery_calls.
  etransitivity; [|apply total_recorded_extract].
  apply size_le_total_recorded. intros p pd. apply extract_entry_total.
Qed.

(** ** Phones abandoning on a date *)

Section DateCountSurvey.
Context `{Runtime}.
Import Normalizer Detector Reading Survey Reports.

Lemma validate_timestamp_truthy c t : validate_timestamp c = Some t → truthy c.
Proof.
  unfold validate_timestamp, parse_timestamp, truthy. intros Hv ->.
  simpl in Hv. discriminate.
Qed.

Lemma unique_phones_step_elem d S record p :
  p ∈ unique_phones_step d S record
  ↔ p ∈ S ∨ ∃ c, abandon_event_for p record = Some c ∧ business_date c = d.
Proof.
  unfold unique_phones_step, abandon_event_for, is_abandon.
  destruct (validate_timestamp (acd_call_time record)) as [t|] eqn:Ht.
  - pose proof (validate_timestamp_truthy _ _ Ht) as Htr.
    destruct (validate_phone_number (acd_phone record)) as [q|].
    + destruct (decide (acd_answered_hungup record = "HUNGUP"
                        ∧ truthy (acd_call_time record)
                        ∧ (27 < time_to_seconds (acd_wait_time record))%nat))
        as [(Hf & _ & Hw)|Hn].
      * destruct (decide (convert_to_business_date t = d)) as [Hd|Hd].
        -- rewrite elem_of_union, elem_of_singleton. split.
           ++ intros [->|Hs]; [|now left]. right.
              rewrite decide_True by tauto. eauto.
           ++ intros [Hs|(c & Hc & _)]; [now right|].
              destruct (decide (q = p ∧ _)) as [[-> _]|]; [now left|discriminate].
        -- split; [now left|]. intros [Hs|(c & Hc & Hb)]; [exact Hs|].
           destruct (decide (q = p ∧ _)); [|discriminate].
           injection Hc as <-. simpl in Hb. contradiction.
      * split; [now left|]. intros [Hs|(c & Hc & _)]; [exact Hs|].
        destruct (decide (q = p ∧ _)) as [[_ [Hf Hw]]|]; [|discriminate].
        exfalso. apply Hn. tauto.
    + destruct (decide _); [destruct (decide _)|];
        (split; [now left|]; intros [Hs|(c & [= ] & _)]; exact Hs).
  - destruct (validate_phone_number (acd_phone record)) as [q|];
      destruct (decide _);
      (split; [now left|]; intros [Hs|(c & [= ] & _)]; exact Hs).
Qed.

Lemma unique_phones_elem d S acd_data p :
  p ∈ foldl (unique_phones_step d) S acd_data
  ↔ p ∈ S ∨ Exists (λ c, business_date c = d) (abandon_events p acd_data).
Proof.
  revert S. unfold abandon_events.
  induction acd_data as [|record acd_data IH]; intros S; simpl.
  { split; [now left|]. intros [Hs|Hex]; [exact Hs|inversion Hex]. }
  rewrite IH, unique_phones_step_elem.
  destruct (abandon_event_for p record) as [c|].
  - rewrite Exists_cons. split.
    + intros [[Hs|(c' & [= <-] & Hb)]|Hex]; eauto.
    + intros [Hs|[Hb|Hex]]; eauto 6.
  - split.
    + intros [[Hs|(c' & [= ] & _)]|Hex]; eauto.
    + intros [Hs|Hex]; eauto.
Qed.

Lemma NoDup_fst_filter {A} (P : string * A → Prop) `{∀ kv, Decision (P kv)}
    (l : list (string * A)) :
  NoDup l.*1 → NoDup (filter P l).*1.
Proof.
  induction l as [|[q x] l IH]; [constructor|].
  simpl. intros [Hq Hnd]%NoDup_cons. rewrite filter_cons.
  destruct (decide _); [|now apply IH].
  simpl. apply NoDup_cons. split; [|now apply IH].
  intros Hin. apply Hq. apply list_elem_of_fmap in Hin as ([q' x'] & -> & Hin).
  apply list_elem_of_filter in Hin as [_ Hin].
  apply list_elem_of_fmap. now exists (q', x').
Qed.

Lemma length_filter_impl {A} (P Q : A → Prop) `{∀ x, Decision (P x)}
    `{∀ x, Decision (Q x)} (l : list A) :
  (∀ x, x ∈ l → P x → Q x) → (length (filter P l) ≤ length (filter Q l))%nat.
Proof.
  induction l as [|x l IH]; intros Himp; [reflexivity|].
  rewrite !filter_cons.
  assert (Hl : (length (filter P l) ≤ length (filter Q l))%nat).
  { apply IH. intros y Hy. apply Himp. now right. }
  destruct (decide (P x)) as [HP|_].
  - rewrite decide_True by (apply Himp; [left|exact HP]). simpl. lia.
  - destruct (decide (Q x)); simpl; lia.
Qed.

Lemma entry_abandons_on_first acd_data p pd :
  extract_abandon_phone_numbers acd_data !! p = Some pd →
  abandons_on (first_abandon_business_date pd) pd.
Proof.
  intros Hpd. pose proof (extract_tracks acd_data p) as Ht. rewrite Hpd in Ht.
  destruct Ht as (Hcalls & _ & _ & _ & Hex & Hbd & _).
  unfold abandons_on. rewrite Hcalls. rewrite Exists_exists in *.
  destruct Hex as (c & Hc & Hct). exists c. split; [exact Hc|].
  apply list_elem_of_omap in Hc as (record & _ & Hev).
  apply abandon_event_for_Some in Hev as (_ & _ & t & _ & ->).
  simpl in *. congruence.
Qed.

End DateCountSurvey.

(** X16. [get_unique_abandon_phones_for_date] returns 0 for no date, and for
    a business date the number of entries of the detector's dictionary that
    hold an abandon call on that date.  That is at least the number of phones
    whose first abandon falls on the date, the figure the daily breakdown
    shows. *)
Theorem unique_abandon_phones_for_date `{Runtime} (acd_data : list AcdRecord) (d : Z) :
  Reports.get_unique_abandon_phones_for_date acd_data None = 0%nat
  ∧ Reports.get_unique_abandon_phones_for_date acd_data (Some d)
    = length (filter (λ kv, Survey.abandons_on d kv.2)
                (map_to_list (Detector.extract_abandon_phone_numbers acd_data)))
  ∧ (length (Reading.cohort (Detector.extract_abandon_phone_numbers acd_data) d)
     ≤ Reports.get_unique_abandon_phones_for_date acd_data (Some d))%nat.
Proof.
  split; [reflexivity|].
  assert (Hcount : Reports.get_unique_abandon_phones_for_date acd_data (Some d)
    = length (filter (λ kv, Survey.abandons_on d kv.2)
                (map_to_list (Detector.extract_abandon_phone_numbers acd_data)))).
  { unfold Reports.get_unique_abandon_phones_for_date.
    rewrite <- (length_fmap fst (filter _ _)).
    unfold size, set_size. simpl. apply Permutation_length.
    apply NoDup_Permutation.
    - apply NoDup_elements.
    - apply NoDup_fst_filter, NoDup_fst_map_to_list.
    - intros p. rewrite elem_of_elements, unique_phones_elem, list_elem_of_fmap.
      pose proof (extract_tracks acd_data p) as Ht. split.
      + intros [Hemp|Hex]; [now apply not_elem_of_empty in Hemp|].
        destruct (Detector.extract_abandon_phone_numbers acd_data !! p)
          as [pd|] eqn:Hpd.
        * exists (p, pd). split; [reflexivity|].
          apply list_elem_of_filter. split; [|now apply elem_of_map_to_list].
          destruct Ht as (Hcalls & _). unfold Survey.abandons_on. simpl.
          now rewrite Hcalls.
        * rewrite Ht in Hex. inversion Hex.
      + intros ([q pd] & -> & Hin). right.
        apply list_elem_of_filter in Hin as [Hon Hin].
        apply elem_of_map_to_list in Hin. simpl in *. rewrite Hin in Ht.
        destruct Ht as (Hcalls & _). unfold Survey.abandons_on in Hon.
        now rewrite Hcalls in Hon. }
  split; [exact Hcount|]. rewrite Hcount. unfold Reading.cohort.
  apply length_filter_impl. intros [p pd] Hin Hbd. simpl in *. subst d.
  apply elem_of_map_to_list in Hin. now apply (entry_abandons_on_first acd_data p).
Qed.

(** ** The daily breakdown as a partition *)

Section PartitionFacts.

Lemma sum_indicator (k0 : Z) (keys : list Z) :
  NoDup keys → k0 ∈ keys →
  sum_list_with (λ k, if decide (k0 = k) then 1%nat else 0%nat) keys = 1%nat.
Proof.
  induction keys as [|k keys IH]; [intros _ Hin; inversion Hin|].
  intros [Hk Hnd]%NoDup_cons Hin. simpl.
  destruct (decide (k0 = k)) as [->|Hne].
  - assert (Hz : sum_list_with (λ k', if decide (k = k') then 1%nat else 0%nat) keys
                 = 0%nat).
    { clear -Hk. induction keys as [|k' keys IH]; [reflexivity|]. simpl.
      rewrite decide_False by (intros ->; apply Hk; left).
      apply IH. intros Hin. apply Hk. now right. }
    rewrite Hz. reflexivity.
  - apply elem_of_cons in Hin as [?|Hin]; [contradiction|]. now rewrite IH.
Qed.

(** Grouping a list by a key loses and repeats nothing: the groups of
    distinct keys that cover the list have its length in total. *)
Lemma partition_count {A} (key : A → Z) (keys : list Z) (l : list A) :
  NoDup keys → (∀ x, x ∈ l → key x ∈ keys) →
  sum_list_with (λ k, length (filter (λ x, key x = k) l)) keys = length l.
Proof.
  intros Hnd. induction l as [|x l IH]; intros Hcover.
  { clear. induction keys as [|k keys IHk]; [reflexivity|]. simpl. exact IHk. }
  assert (Hsplit : ∀ ks,
    sum_list_with (λ k, length (filter (λ y, key y = k) (x :: l))) ks
    = (sum_list_with (λ k, if decide (key x = k) then 1%nat else 0%nat) ks
       + sum_list_with (λ k, length (filter (λ y, key y = k) l)) ks)%nat).
  { induction ks as [|k ks IHk]; [reflexivity|]. simpl. rewrite IHk, filter_cons.
    destruct (decide (key x = k)); simpl; lia. }
  rewrite Hsplit, IH by (intros y Hy; apply Hcover; now right).
  rewrite sum_indicator; [reflexivity|exact Hnd|apply Hcover; left].
Qed.

Lemma length_filter_split {A} (P : A → Prop) `{∀ x, Decision (P x)} (l : list A) :
  (length (filter P l) + length (filter (λ x, ¬ P x) l))%nat = length l.
Proof.
  induction l as [|x l IH]; [reflexivity|]. rewrite !filter_cons.
  destruct (decide (P x)) as [HP|HP].
  - rewrite decide_False by tauto. simpl. lia.
  - rewrite decide_True by exact HP. simpl. lia.
Qed.

Lemma length_filter_disjoint {A} (P Q : A → Prop) `{∀ x, Decision (P x)}
    `{∀ x, Decision (Q x)} (l : list A) :
  (∀ x, P x → Q x → False) →
  (length (filter P l) + length (filter Q l) ≤ length l)%nat.
Proof.
  intros Hdis. induction l as [|x l IH]; [reflexivity|]. rewrite !filter_cons.
  destruct (decide (P x)) as [HP|HP], (decide (Q x)) as [HQ|HQ]; simpl; try lia.
  destruct (Hdis x HP HQ).
Qed.

Lemma strictly_sorted_rows (rows : list DailyRow) :
  StronglySorted Metrics.row_le rows → NoDup (row_business_date <$> rows) →
  StronglySorted (λ r1 r2, row_business_date r1 < row_business_date r2) rows.
Proof.
  induction 1 as [|row rows Hs IH Hall]; [constructor|].
  rewrite fmap_cons. intros [Hrow Hnd]%NoDup_cons. constructor; [now apply IH|].
  rewrite Forall_forall in *. intros row' Hin.
  pose proof (Hall row' Hin) as Hle. unfold Metrics.row_le in Hle.
  assert (row_business_date row ≠ row_business_date row').
  { intros Heq. apply Hrow. rewrite Heq. now apply list_elem_of_fmap_2. }
  lia.
Qed.

End PartitionFacts.

(** X17. The daily breakdown lists its rows by strictly increasing business
    date: one row per date, earliest first. *)
Theorem daily_report_sorted `{Runtime} (acd_data : list AcdRecord)
    (abandon_phone_data : gmap string PhoneData) :
  StronglySorted (λ r1 r2, row_business_date r1 < row_business_date r2)
    (Metrics.create_daily_breakdown_report acd_data abandon_phone_data).
Proof.
  apply strictly_sorted_rows.
  - unfold Metrics.create_daily_breakdown_report.
    destruct (Metrics.valid_data acd_data); [constructor|].
    apply StronglySorted_merge_sort; apply _.
  - rewrite report_dates. apply group_keys_NoDup.
Qed.

(** X18. The rows of the daily breakdown share out the records with a valid
    phone and a valid timestamp: their total calls add up to the number of
    those records, and the breakdown is empty exactly when there is none.
    Every row has at least one call; its answered and hung-up calls are
    among its calls, and its quick drops and abandon calls are exactly its
    hung-up calls. *)
Theorem daily_report_totals `{Runtime} (acd_data : list AcdRecord)
    (abandon_phone_data : gmap string PhoneData) :
  let report := Metrics.create_daily_breakdown_report acd_data abandon_phone_data in
  sum_list_with row_total_calls report = length (Metrics.valid_data acd_data)
  ∧ (report = [] ↔ Metrics.valid_data acd_data = [])
  ∧ Forall (λ row,
       (1 ≤ row_total_calls row)%nat
       ∧ (row_answered_calls row + row_hungup_calls row ≤ row_total_calls row)%nat
       ∧ (row_quick_drops row + row_abandon_calls row)%nat = row_hungup_calls row)
     report.
Proof.
  intros report.
  pose proof (report_rows acd_data abandon_phone_data) as Hrows.
  fold report in Hrows.
  assert (Hsum : sum_list_with row_total_calls report
                 = length (Metrics.valid_data acd_data)).
  { assert (Hpart : sum_list_with
                      (λ k, length (filter (λ v, vr_business_date v = k)
                                      (Metrics.valid_data acd_data)))
                      (Metrics.group_keys (Metrics.valid_data acd_data))
                    = length (Metrics.valid_data acd_data)).
    { apply partition_count; [apply group_keys_NoDup|].
      intros v Hv. apply group_keys_elem. eauto. }
    rewrite Hrows, <- Hpart.
    generalize (Metrics.group_keys (Metrics.valid_data acd_data)). intros keys.
    induction keys as [|k keys IH]; [reflexivity|].
    rewrite fmap_cons. simpl. now rewrite IH. }
  split; [exact Hsum|]. split.
  - split.
    + intros Hnil. rewrite Hnil in Hsum. simpl in Hsum.
      destruct (Metrics.valid_data acd_data); [reflexivity|discriminate].
    + intros Hnil. unfold report, Metrics.create_daily_breakdown_report.
      now rewrite Hnil.
  - apply Forall_forall. intros row Hrow. rewrite Hrows in Hrow.
    apply list_elem_of_fmap in Hrow as (bd & -> & Hbd). simpl.
    apply group_keys_elem in Hbd as (v & Hv & Hdate). split; [|split].
    + assert (Hin : v ∈ filter (Metrics.on_date bd) (Metrics.valid_data acd_data))
        by (apply list_elem_of_filter; split; assumption).
      destruct (filter _ _); [inversion Hin|simpl; lia].
    + apply length_filter_disjoint. unfold Metrics.flag_is.
      intros x Ha Hh. rewrite Ha in Hh. discriminate.
    + apply (length_filter_split Metrics.is_quick_drop).
Qed.

Section CohortSums.
Import Metrics Reading.



Lemma length_recovered_of (l : list (string * PhoneData)) :
  length (recovered_of l) = length (filter is_recovered l.*2).
Proof.
  unfold recovered_of. induction l as [|[p pd] l IH]; [reflexivity|].
  rewrite fmap_cons, !filter_cons. simpl.
  destruct (decide (is_recovered pd)); simpl; now rewrite IH.
Qed.



Context `{Runtime}.


End CohortSums.


(** ** The sheets built from the aggregates *)

Section SheetSurvey.
Context `{Runtime}.
Import Metrics Reading Survey Reports.

(** What the search leaves in a run, entry by entry. *)
Lemma run_entry_status acd_data call_data p pd :
  Pipeline.aggregates acd_data call_data !! p = Some pd →
  (is_recovered pd ∧ is_Some (recovery_call pd) ∧ ¬ needs_assignment pd)
  ∨ (¬ is_recovered pd ∧ recovery_status pd = Some NEEDS_OUTBOUND
     ∧ needs_assignment pd
     ∧ ∀ rc, recovery_call pd = Some rc →
             rc_disposition rc ∉ Matcher.successful_dispositions).
Proof.
  unfold Pipeline.aggregates. rewrite find_recovery_calls_lookup.
  pose proof (extract_tracks acd_data p) as Ht.
  destruct (Detector.extract_abandon_phone_numbers acd_data !! p) as [pd0|];
    [|discriminate].
  destruct Ht as (_ & _ & _ & _ & _ & _ & _ & Hrc & _).
  simpl. intros [= <-]. rewrite search_phone_decided. unfold decided.
  destruct (first_success _) as [rc|] eqn:Hfs.
  - left. unfold is_recovered, needs_assignment. simpl.
    split; [reflexivity|]. split; [eauto|].
    intros Hin. repeat (apply elem_of_cons in Hin as [[= ]|Hin]). inversion Hin.
  - right. unfold is_recovered, needs_assignment. simpl.
    split; [discriminate|]. split; [reflexivity|]. split; [left|].
    unfold attempted. rewrite Hrc. intros rc.
    destruct (head _) as [rc'|] eqn:Hh; simpl; [|rewrite Hrc; discriminate].
    intros [= <-]. apply (first_success_None _ rc' Hfs).
    destruct (all_candidates acd_data call_data p pd0); [discriminate|].
    injection Hh as ->. left.
Qed.

Lemma length_filter_eq_in {A} (P Q : A → Prop) `{∀ x, Decision (P x)}
    `{∀ x, Decision (Q x)} (l : list A) :
  (∀ x, x ∈ l → P x ↔ Q x) → length (filter P l) = length (filter Q l).
Proof.
  intros Hiff. apply Nat.le_antisymm; apply length_filter_impl;
    intros x Hx; apply Hiff; exact Hx.
Qed.

Lemma successful_rows_count (l : list (string * PhoneData)) :
  (∀ kv, kv ∈ l → is_recovered kv.2 → is_Some (recovery_call kv.2)) →
  length (filter (λ row, rr_successful row = true) (omap recovery_row l))
  = length (recovered_of l).
Proof.
  unfold recovered_of. induction l as [|kv l IH]; intros Hall; [reflexivity|].
  assert (IH' := IH (λ kv' Hin, Hall kv' (list_elem_of_further _ _ _ Hin))).
  change (omap recovery_row (kv :: l))
    with (match recovery_row kv with
          | Some row => row :: omap recovery_row l
          | None => omap recovery_row l
          end).
  rewrite (filter_cons _ kv). unfold recovery_row at 1.
  destruct (decide (is_recovered kv.2)) as [Hr|Hr].
  - destruct (Hall kv (list_elem_of_here _ _) Hr) as [rc Hrc]. rewrite Hrc.
    rewrite filter_cons.
    rewrite decide_True by (simpl; now apply bool_decide_eq_true).
    simpl length. now rewrite IH'.
  - destruct (recovery_call kv.2) as [rc|]; [|exact IH'].
    rewrite filter_cons, decide_False; [exact IH'|].
    simpl. intros Hb. apply bool_decide_eq_true in Hb. contradiction.
Qed.

End SheetSurvey.

(** X20. In a run the assignment sheet has one row for every phone that is
    not RECOVERED and none for a recovered phone, as many rows as the summary
    counts phones needing an outbound call; each row carries the status
    NEEDS_OUTBOUND. *)
Theorem run_assignment_sheet `{Runtime}
    (acd_data : list AcdRecord) (call_data : list CallRecord) :
  let aggregates := Pipeline.aggregates acd_data call_data in
  length (Reports.assignment_data aggregates)
  = unique_phones_needing (Pipeline.summary acd_data call_data)
  ∧ NoDup (ar_phone <$> Reports.assignment_data aggregates)
  ∧ (∀ p, p ∈ ar_phone <$> Reports.assignment_data aggregates
          ↔ ∃ pd, aggregates !! p = Some pd ∧ ¬ Metrics.is_recovered pd)
  ∧ Forall (λ row, ar_recovery_status row = Some NEEDS_OUTBOUND)
           (Reports.assignment_data aggregates).
Proof.
  intros aggregates.
  assert (Hrun : ∀ kv, kv ∈ map_to_list aggregates →
    (Reports.needs_assignment kv.2 ↔ ¬ Metrics.is_recovered kv.2)
    ∧ (Reports.needs_assignment kv.2 → recovery_status kv.2 = Some NEEDS_OUTBOUND)).
  { intros [p pd] Hin. apply elem_of_map_to_list in Hin. simpl.
    destruct (run_entry_status acd_data call_data p pd Hin)
      as [(Hr & _ & Hn)|(Hr & Hst & Hn & _)]; tauto. }
  unfold Reports.assignment_data. split; [|split; [|split]].
  - rewrite length_fmap.
    unfold Pipeline.summary, Metrics.generate_summary_metrics. simpl.
    fold aggregates. unfold Metrics.recovered_phones.
    rewrite <- length_recovered_of, <- length_map_to_list.
    rewrite (length_filter_eq_in _ (λ kv, ¬ Metrics.is_recovered kv.2))
      by (intros kv Hkv; apply Hrun; exact Hkv).
    pose proof (length_filter_split (λ kv : string * PhoneData, Metrics.is_recovered kv.2)
                  (map_to_list aggregates)) as Hsplit.
    unfold Reading.recovered_of. cbv beta in Hsplit. lia.
  - rewrite <- list_fmap_compose.
    apply (NoDup_fst_filter (λ kv, Reports.needs_assignment kv.2)),
      NoDup_fst_map_to_list.
  - intros p. rewrite <- list_fmap_compose, list_elem_of_fmap. split.
    + intros ([q pd] & -> & Hin). apply list_elem_of_filter in Hin as [Hn Hin].
      exists pd. split; [now apply elem_of_map_to_list|].
      now apply (Hrun (q, pd) Hin).
    + intros (pd & Hpd & Hr). exists (p, pd). split; [reflexivity|].
      apply elem_of_map_to_list in Hpd. apply list_elem_of_filter.
      split; [|exact Hpd]. now apply (Hrun (p, pd) Hpd).
  - apply Forall_fmap, Forall_forall. intros kv Hin.
    apply list_elem_of_filter in Hin as [Hn Hin]. simpl.
    now apply (Hrun kv Hin).
Qed.

(** X21. In a run the recovery sheet marks a row successful exactly when the
    disposition of its recovery call is in the success list; a row that is
    not successful carries the status NEEDS_OUTBOUND; and the successful rows
    are as many as the recovered phones of the summary. *)
Theorem run_recovery_sheet `{Runtime}
    (acd_data : list AcdRecord) (call_data : list CallRecord) :
  let rows := Reports.recovery_rows (Pipeline.aggregates acd_data call_data) in
  Forall (λ row,
     (rr_successful row = true
      ↔ rr_disposition row ∈ Matcher.successful_dispositions)
     ∧ (rr_successful row = false →
        rr_recovery_status row = Some NEEDS_OUTBOUND)) rows
  ∧ length (filter (λ row, rr_successful row = true) rows)
    = unique_phones_recovered (Pipeline.summary acd_data call_data).
Proof.
  intros rows. split.
  - apply Forall_forall. intros row Hrow. unfold rows, Reports.recovery_rows in Hrow.
    apply list_elem_of_omap in Hrow as ([p pd] & Hin & Hrow).
    apply elem_of_map_to_list in Hin. unfold Reports.recovery_row in Hrow.
    simpl in Hrow. destruct (recovery_call pd) as [rc|] eqn:Hrc; [|discriminate].
    injection Hrow as <-. simpl.
    pose proof (find_recovery_calls_lookup
                  (Detector.extract_abandon_phone_numbers acd_data)
                  acd_data call_data p) as Hl.
    fold (Pipeline.aggregates acd_data call_data) in Hl. rewrite Hin in Hl.
    pose proof (extract_tracks acd_data p) as Ht.
    destruct (Detector.extract_abandon_phone_numbers acd_data !! p) as [pd0|];
      [|discriminate].
    destruct Ht as (_ & _ & _ & _ & _ & _ & _ & Hrc0 & _).
    simpl in Hl. injection Hl as Hl. rewrite search_phone_decided in Hl.
    unfold Survey.decided in Hl.
    destruct (Survey.first_success _) as [rc1|] eqn:Hfs.
    + apply first_success_Some in Hfs as [_ Hs]. subst pd. simpl in *.
      injection Hrc as <-. split; [|discriminate].
      split; [intros _; exact Hs|intros _; reflexivity].
    + subst pd. unfold Survey.attempted in *. rewrite Hrc0 in *.
      destruct (head _) as [rc1|] eqn:Hh; simpl in *; [|congruence].
      injection Hrc as <-. split; [|reflexivity].
      split; [discriminate|]. intros Hs. exfalso.
      apply (first_success_None _ rc1 Hfs); [|exact Hs].
      destruct (Survey.all_candidates acd_data call_data p pd0); [discriminate|].
      injection Hh as ->. left.
  - unfold rows, Reports.recovery_rows.
    rewrite successful_rows_count.
    + unfold Pipeline.summary, Metrics.generate_summary_metrics. simpl.
      apply length_recovered_of.
    + intros [p pd] Hin Hr. apply elem_of_map_to_list in Hin. simpl in *.
      destruct (run_entry_status acd_data call_data p pd Hin)
        as [(_ & Hsome & _)|(Hn & _)]; [exact Hsome|contradiction].
Qed.

(** ** The display fields of an entry *)

Section DisplaySurvey.
Context `{Runtime}.
Import Normalizer Detector Reading Survey.

Lemma track_abandon_display cur p record t :
  validate_phone_number (acd_phone record) = Some p →
  validate_timestamp (acd_call_time record) = Some t →
  from_option (display_agrees p) True cur →
  display_agrees p (track_abandon cur p record t).
Proof.
  intros Hp Ht Hcur. unfold track_abandon, display_agrees in *.
  destruct cur as [pd|]; cbn [from_option] in Hcur; destruct (decide _);
    cbn -[validate_phone_number validate_timestamp]; tauto.
Qed.

Lemma extract_display acd_data p pd :
  extract_abandon_phone_numbers acd_data !! p = Some pd → display_agrees p pd.
Proof.
  unfold extract_abandon_phone_numbers. revert p pd.
  induction acd_data as [|record acd_data IH] using rev_ind; intros p pd.
  { simpl. rewrite lookup_empty. discriminate. }
  rewrite foldl_snoc. unfold extract_step at 1.
  destruct (validate_phone_number (acd_phone record)) as [q|] eqn:Hq; [|apply IH].
  destruct (validate_timestamp (acd_call_time record)) as [t|] eqn:Ht; [|apply IH].
  destruct (decide (is_abandon record)); [|apply IH].
  destruct (decide (q = p)) as [->|Hne].
  - rewrite lookup_insert_eq. intros [= <-].
    apply track_abandon_display; [assumption..|].
    destruct (foldl extract_step ∅ acd_data !! p) as [pd0|] eqn:H0; simpl; [|exact I].
    now apply IH.
  - rewrite lookup_insert_ne by exact Hne. apply IH.
Qed.

End DisplaySurvey.

(** X22. In a run the raw fields an entry keeps for the sheets belong to its
    key and its first abandon: the original phone normalizes to the entry's
    phone, the first-abandon cell validates to the first-abandon time, and
    the first-abandon business date is the business date of that time. *)
Theorem run_display_fields `{Runtime}
    (acd_data : list AcdRecord) (call_data : list CallRecord)
    (p : string) (pd : PhoneData) :
  Pipeline.aggregates acd_data call_data !! p = Some pd →
  Normalizer.validate_phone_number (original_phone pd) = Some p
  ∧ Normalizer.validate_timestamp (first_abandon_time_str pd)
    = Some (first_abandon_time pd)
  ∧ first_abandon_business_date pd
    = Normalizer.convert_to_business_date (first_abandon_time pd).
Proof.
  unfold Pipeline.aggregates. rewrite find_recovery_calls_lookup.
  pose proof (extract_tracks acd_data p) as Ht.
  pose proof (extract_display acd_data p) as Hd.
  destruct (Detector.extract_abandon_phone_numbers acd_data !! p) as [pd0|];
    [|discriminate].
  destruct Ht as (_ & _ & _ & _ & _ & Hbd & _).
  destruct (Hd pd0 eq_refl) as [Hphone Hcell].
  simpl. intros [= <-].
  pose proof (search_phone_abandon_part acd_data call_data p pd0) as Hpart.
  apply (f_equal original_phone) in Hpart as Ho.
  apply (f_equal first_abandon_time_str) in Hpart as Hs.
  apply (f_equal first_abandon_time) in Hpart as Hf.
  apply (f_equal first_abandon_business_date) in Hpart as Hb.
  simpl in Ho, Hs, Hf, Hb. rewrite Ho, Hs, Hf, Hb. tauto.
Qed.

Lemma run_display_fields_witness :
  ∃ pd,
    Pipeline.aggregates (H := Scenario.runtime) Scenario.log_out_of_order []
      !! Scenario.customer = Some pd
    ∧ original_phone pd = "+1 (555) 123-4567"
    ∧ Normalizer.validate_phone_number (original_phone pd) = Some Scenario.customer
    ∧ Normalizer.validate_timestamp (H := Scenario.runtime)
        (first_abandon_time_str pd) = Some (first_abandon_time pd)
    ∧ first_abandon_business_date pd
      = Normalizer.convert_to_business_date (first_abandon_time pd).
Proof.
  eexists. split; [vm_compute; reflexivity|]. split; [vm_compute; reflexivity|].
  apply (run_display_fields (H := Scenario.runtime)
           Scenario.log_out_of_order [] Scenario.customer).
  vm_compute. reflexivity.
Defined.
